(** * Gaming Voice Chat Translator: session manager, message model and
      translation cache

    A shallow embedding of [core/session_manager.py] and
    [core/translator.py], and the properties of the message log, the
    running statistics, the persistence operations and the translation
    cache that the specification states about them.

    Layout: the Python value model ([Py]); the contract of the library
    functions the program calls ([PyLib]); the world the program runs in
    ([World]); the classes of the two source files ([Message], [Session],
    [Translation]); the statistics as the specification words them
    ([Recomputation]); the cache class of the specification
    ([TranslationCache]); an implementation of the library contract
    ([Reference]) and concrete inputs ([Phrasebook], [Samples]); then the
    lemmas and theorems, and the theorems at concrete inputs. *)

From Stdlib Require Import String Ascii ZArith QArith List Lia Bool.
From stdpp Require Import gmap strings list fin_maps pretty.

Local Open Scope string_scope.
Local Open Scope Z_scope.
Local Open Scope list_scope.
Local Set Warnings "-register-all".

(** ** Python values, exceptions, and the state-and-exception monad *)

Module Py.

(** The values [json.load] produces and the program stores without
    checking their shape.  A [str] is a sequence of characters with code
    points below 256; floating-point numbers are left out.  A dict keeps
    its insertion order; its keys are hashable values. *)
Inductive pyval : Type :=
| PNone
| PBool (b : bool)
| PInt (n : Z)
| PStr (s : string)
| PList (l : list pyval)
| PDict (d : list (pyval * pyval)).

(** The exception classes the program meets; [InterpolationError] is
    [configparser.InterpolationError], which is no [ValueError]. *)
Inductive exn : Type :=
| TypeError | KeyError | IndexError | AttributeError
| ValueError | OSError | ImportError
| RuntimeError | InterpolationError.

Inductive outcome (A : Type) : Type :=
| Ok (a : A)
| Raise (e : exn).
Arguments Ok {A} a.
Arguments Raise {A} e.

(** A computation over a mutable state [S]: what the state has become
    when an exception is raised is kept, as in Python. *)
Definition St (S A : Type) : Type := S -> outcome A * S.

Definition ret {S A} (a : A) : St S A := fun s => (Ok a, s).
Definition raise {S A} (e : exn) : St S A := fun s => (Raise e, s).
Definition bind {S A B} (c : St S A) (k : A -> St S B) : St S B :=
  fun s => match c s with
           | (Ok a, s') => k a s'
           | (Raise e, s') => (Raise e, s')
           end.
Definition lift {S A} (o : outcome A) : St S A := fun s => (o, s).
Definition get {S} : St S S := fun s => (Ok s, s).
Definition modify {S} (f : S -> S) : St S unit := fun s => (Ok tt, f s).

(** [try: c  except Exception: h] *)
Definition try_except {S A} (c : St S A) (h : exn -> St S A) : St S A :=
  fun s => match c s with
           | (Ok a, s') => (Ok a, s')
           | (Raise e, s') => h e s'
           end.

(** [try: c  except ValueError: h]: any other exception goes on. *)
Definition try_except_ValueError {S A} (c : St S A) (h : St S A) : St S A :=
  fun s => match c s with
           | (Raise ValueError, s') => h s'
           | r => r
           end.

(** A computation on a component [T] of the state [S]. *)
Definition zoom {S T A} (proj : S -> T) (upd : T -> S -> S) (c : St T A) : St S A :=
  fun s => let '(r, t') := c (proj s) in (r, upd t' s).

(** [for x in xs: body x] *)
Fixpoint for_each {S A} (xs : list A) (body : A -> St S unit) : St S unit :=
  match xs with
  | [] => ret tt
  | x :: rest => bind (body x) (fun _ => for_each rest body)
  end.

(** [isinstance(v, str)] *)
Definition is_str (v : pyval) : Prop :=
  match v with
  | PStr _ => True
  | _ => False
  end.

(** Truth value of an object in a condition. *)
Definition truthy (v : pyval) : bool :=
  match v with
  | PNone => false
  | PBool b => b
  | PInt n => negb (n =? 0)
  | PStr s => negb (String.eqb s "")
  | PList l => match l with [] => false | _ => true end
  | PDict d => match d with [] => false | _ => true end
  end.

Definition hashable (v : pyval) : bool :=
  match v with
  | PList _ | PDict _ => false
  | _ => true
  end.

(** [bool] is a subclass of [int]: [True == 1] and [False == 0]. *)
Definition as_int (v : pyval) : option Z :=
  match v with
  | PInt n => Some n
  | PBool b => Some (if b then 1 else 0)
  | _ => None
  end.

(** Equality of two hashable values, as dict lookup uses it. *)
Definition key_eqb (a b : pyval) : bool :=
  match a, b with
  | PNone, PNone => true
  | PStr s, PStr t => String.eqb s t
  | _, _ => match as_int a, as_int b with
            | Some x, Some y => x =? y
            | _, _ => false
            end
  end.

Fixpoint dict_lookup (k : pyval) (d : list (pyval * pyval)) : option pyval :=
  match d with
  | [] => None
  | (k', v) :: rest => if key_eqb k k' then Some v else dict_lookup k rest
  end.

(** [d[k] = v]: an existing key keeps its place, a new key goes last. *)
Fixpoint dict_set (k v : pyval) (d : list (pyval * pyval)) : list (pyval * pyval) :=
  match d with
  | [] => [(k, v)]
  | (k', v') :: rest =>
      if key_eqb k k' then (k', v) :: rest else (k', v') :: dict_set k v rest
  end.

(** [a == b] *)
Fixpoint py_eqb (a b : pyval) {struct a} : bool :=
  match a, b with
  | PList l1, PList l2 =>
      (fix go (xs ys : list pyval) {struct xs} : bool :=
         match xs, ys with
         | [], [] => true
         | x :: xs', y :: ys' => py_eqb x y && go xs' ys'
         | _, _ => false
         end) l1 l2
  | PDict d1, PDict d2 =>
      (length d1 =? length d2)%nat &&
      (fix go (xs : list (pyval * pyval)) {struct xs} : bool :=
         match xs with
         | [] => true
         | (k, v) :: xs' =>
             match dict_lookup k d2 with
             | Some v' => py_eqb v v' && go xs'
             | None => false
             end
         end) d1
  | PList _, _ | PDict _, _ | _, PList _ | _, PDict _ => false
  | _, _ => key_eqb a b
  end.

(** Index of a sequence of length [len]: negative indices count from
    the end. *)
Definition seq_index (i : Z) (len : nat) : option nat :=
  let j := if i <? 0 then i + Z.of_nat len else i in
  if (0 <=? j) && (j <? Z.of_nat len) then Some (Z.to_nat j) else None.

(** [c[k]] *)
Definition getitem (c k : pyval) : outcome pyval :=
  match c with
  | PDict d =>
      if hashable k then
        match dict_lookup k d with
        | Some v => Ok v
        | None => Raise KeyError
        end
      else Raise TypeError
  | PList l =>
      match as_int k with
      | Some i =>
          match seq_index i (length l) with
          | Some j => match l !! j with Some v => Ok v | None => Raise IndexError end
          | None => Raise IndexError
          end
      | None => Raise TypeError
      end
  | PStr s =>
      match as_int k with
      | Some i =>
          match seq_index i (String.length s) with
          | Some j => Ok (PStr (String.substring j 1 s))
          | None => Raise IndexError
          end
      | None => Raise TypeError
      end
  | _ => Raise TypeError
  end.

(** [c[k] = v], giving the container after the assignment. *)
Definition setitem (c k v : pyval) : outcome pyval :=
  match c with
  | PDict d => if hashable k then Ok (PDict (dict_set k v d)) else Raise TypeError
  | PList l =>
      match as_int k with
      | Some i =>
          match seq_index i (length l) with
          | Some j => Ok (PList (<[j:=v]> l))
          | None => Raise IndexError
          end
      | None => Raise TypeError
      end
  | _ => Raise TypeError
  end.

(** [x in c] *)
Definition contains (c x : pyval) : outcome bool :=
  match c with
  | PDict d =>
      if hashable x then Ok (bool_decide (is_Some (dict_lookup x d)))
      else Raise TypeError
  | PList l => Ok (existsb (py_eqb x) l)
  | PStr s =>
      match x with
      | PStr t => Ok (bool_decide (is_Some (String.index 0 t s)))
      | _ => Raise TypeError
      end
  | _ => Raise TypeError
  end.

(** [x + n] for an integer [n]. *)
Definition add_int (x : pyval) (n : Z) : outcome pyval :=
  match as_int x with
  | Some m => Ok (PInt (m + n))
  | None => Raise TypeError
  end.

(** [c.get(k, default)] with a string key: only a dict has the method. *)
Definition dict_get (c : pyval) (k : string) (default : pyval) : outcome pyval :=
  match c with
  | PDict d =>
      match dict_lookup (PStr k) d with
      | Some v => Ok v
      | None => Ok default
      end
  | _ => Raise AttributeError
  end.

(** The values a [for] loop draws from an object. *)
Definition iterate (v : pyval) : outcome (list pyval) :=
  match v with
  | PList l => Ok l
  | PDict d => Ok (map fst d)
  | PStr s => Ok (map (fun c => PStr (String c "")) (list_ascii_of_string s))
  | _ => Raise TypeError
  end.

(** Characters for which [str.isspace] holds, below code point 256. *)
Definition is_space (c : ascii) : bool :=
  let n := nat_of_ascii c in
  ((9 <=? n) && (n <=? 13) || (28 <=? n) && (n <=? 32)
   || (n =? 133) || (n =? 160))%nat.

(** [s.split()]: the maximal runs of non-space characters, in order.
    [cur] is the word being read, last character first. *)
Fixpoint split_aux (cs : list ascii) (cur : list ascii) : list string :=
  let flush := match cur with
               | [] => []
               | _ => [string_of_list_ascii (rev cur)]
               end in
  match cs with
  | [] => flush
  | c :: rest =>
      if is_space c then flush ++ split_aux rest []
      else split_aux rest (c :: cur)
  end.

Definition split (s : string) : list string :=
  split_aux (list_ascii_of_string s) [].

(** [len(v.split())]: only a [str] has the method. *)
Definition word_count_of (v : pyval) : outcome Z :=
  match v with
  | PStr s => Ok (Z.of_nat (length (split s)))
  | _ => Raise AttributeError
  end.

End Py.
Export Py.

Declare Scope py_scope.
Delimit Scope py_scope with py.
Notation "'let*' x := c 'in' k" := (bind c (fun x => k))
  (at level 10, x name, c at level 100, k at level 200,
   format "'[v' 'let*'  x  :=  c  'in'  '/' k ']'") : py_scope.
Notation "'do' c 'then' k" := (bind c (fun _ => k))
  (at level 10, c at level 100, k at level 200,
   format "'[v' 'do'  c  'then'  '/' k ']'") : py_scope.
Local Open Scope py_scope.

(** ** The library contract

    [datetime] and the built-in [str] belong to the Python library, not
    to the repository.  The program uses them through this contract:
    [datetime.fromisoformat] rejects a string with [ValueError] ([None]) or
    returns a datetime, and it inverts [datetime.isoformat]; [str] of a
    string is the string. *)

Class PyLib : Type := {
  datetime : Type;
  isoformat : datetime -> string;
  parse_isoformat : string -> option datetime;
  strftime : datetime -> string -> string;
  py_str : pyval -> string;
  parse_isoformat_isoformat : forall d, parse_isoformat (isoformat d) = Some d;
  py_str_PStr : forall s, py_str (PStr s) = s
}.

(** [datetime.fromisoformat(v)]: the argument must be a [str]. *)
Definition fromisoformat `{PyLib} (v : pyval) : outcome datetime :=
  match v with
  | PStr s =>
      match parse_isoformat s with
      | Some d => Ok d
      | None => Raise ValueError
      end
  | _ => Raise TypeError
  end.

(** ** The world: the clock, the file system, the optional PDF library *)

Module World.
Section World.
Context `{PyLib}.

(** A piece of text written to a file: a rendered string, a fixed
    block of markup of the source named rather than spelled out, or the
    display name or flag the [GAMING_LANGUAGES] table gives a code. *)
Inductive fragment : Type :=
| Text (s : string)
| Block (name : string)
| LangName (code : pyval)
| LangFlag (code : pyval).

(** A flowable handed to reportlab. *)
Inductive pdf_element : Type :=
| Paragraph (body : list fragment) (style : string)
| Spacer (width height : Z).

(** What a file holds.  [JsonFile v] is a JSON document that
    [json.load] reads as [v]; the other files are not JSON documents
    (the exported text, HTML and CSV never are). *)
Inductive file : Type :=
| JsonFile (v : pyval)
| TextFile (parts : list fragment)
| CsvFile (rows : list (list string))
| PdfFile (elements : list pdf_element).

(** reportlab, when it is installed: preparing the style sheet may
    raise, and building the document raises or gives the file. *)
Record reportlab_lib : Type := {
  prepare_styles : outcome unit;
  build : list pdf_element -> outcome file
}.

Record world : Type := {
  files : gmap string file;
  (** whether [open(path, 'w')] succeeds *)
  writable : string -> bool;
  (** whether [Path(dir).mkdir(exist_ok=True, parents=True)] succeeds *)
  can_mkdir : string -> bool;
  reportlab : option reportlab_lib;
  (** the successive values of [datetime.now()] *)
  clock : nat -> datetime;
  ticks : nat
}.

Definition set_files (f : gmap string file) (w : world) : world :=
  {| files := f; writable := writable w; can_mkdir := can_mkdir w;
     reportlab := reportlab w; clock := clock w; ticks := ticks w |}.

(** [datetime.now()] *)
Definition now : St world datetime :=
  fun w => (Ok (clock w (ticks w)),
            {| files := files w; writable := writable w;
               can_mkdir := can_mkdir w; reportlab := reportlab w;
               clock := clock w; ticks := S (ticks w) |}).

(** [with open(path, 'r') as f: json.load(f)]: a missing file is an
    [OSError], a file that is not JSON a [json.JSONDecodeError], which is
    a [ValueError]. *)
Definition read_json (path : string) : St world pyval :=
  fun w => match files w !! path with
           | None => (Raise OSError, w)
           | Some (JsonFile v) => (Ok v, w)
           | Some _ => (Raise ValueError, w)
           end.

(** The file at [path] becomes [f]. *)
Definition put_file (path : string) (f : file) : St world unit :=
  modify (fun w => set_files (<[path := f]> (files w)) w).

(** [open(path, 'w')] creates the file empty, or truncates it. *)
Definition open_w (path : string) : St world unit :=
  fun w => if writable w path
           then put_file path (TextFile []) w
           else (Raise OSError, w).

(** [open(path, 'w')] followed by writing [f] and closing the file. *)
Definition write_file (path : string) (f : file) : St world unit :=
  do open_w path then put_file path f.

(** The body of a [with open(path, 'w') as f] block, run once the file
    is open: the state of [body] is what [f.write] has written so far,
    and it is in the file when the block is left, also by an
    exception. *)
Definition with_open_w (path : string) (body : St (list fragment) unit)
  : St world unit :=
  let '(r, parts) := body [] in
  do put_file path (TextFile parts) then lift r.

(** [f.write(...)] of the given fragments. *)
Definition emit (parts : list fragment) : St (list fragment) unit :=
  modify (fun written => written ++ parts).

Definition mkdir (dir : string) : St world unit :=
  fun w => if can_mkdir w dir then (Ok tt, w) else (Raise OSError, w).

(** The key [json.dump] writes for a dict key. *)
Definition json_key (k : pyval) : string :=
  match k with
  | PStr s => s
  | PBool true => "true"
  | PBool false => "false"
  | PNone => "null"
  | PInt n => pretty n
  | _ => ""
  end.

(** What [json.load] reads back from the text [json.dump] wrote for
    [v]: keys have become strings, and of two keys that became the same
    string the later value is kept. *)
Fixpoint json_reload (v : pyval) : pyval :=
  match v with
  | PList l => PList (map json_reload l)
  | PDict d =>
      PDict ((fix go (xs acc : list (pyval * pyval)) {struct xs} :=
                match xs with
                | [] => acc
                | (k, x) :: rest =>
                    go rest (dict_set (PStr (json_key k)) (json_reload x) acc)
                end) d [])
  | _ => v
  end.

(** [with open(path, 'w') as f: json.dump(v, f, ...)] *)
Definition json_dump (path : string) (v : pyval) : St world unit :=
  write_file path (JsonFile (json_reload v)).

End World.
End World.
Export World.

(** ** [class VoiceMessage] *)

Module Message.
Section Message.
Context `{PyLib}.

(** The constructor stores its arguments as they are given, so a field
    holds whatever value the caller, or a loaded file, supplied. *)
Record VoiceMessage : Type := {
  text : pyval;
  language : pyval;
  is_outgoing : pyval;
  translation : pyval;
  timestamp : datetime
}.

Definition set_timestamp (t : datetime) (m : VoiceMessage) : VoiceMessage :=
  {| text := text m; language := language m; is_outgoing := is_outgoing m;
     translation := translation m; timestamp := t |}.

Definition __init__ (text language is_outgoing translation : pyval)
  : St world VoiceMessage :=
  let* t := now in
  ret {| text := text; language := language; is_outgoing := is_outgoing;
         translation := translation; timestamp := t |}.

Definition to_dict (self : VoiceMessage) : pyval :=
  PDict [ (PStr "text", text self);
          (PStr "language", language self);
          (PStr "is_outgoing", is_outgoing self);
          (PStr "translation", translation self);
          (PStr "timestamp", PStr (isoformat (timestamp self))) ].

Definition from_dict (data : pyval) : St world VoiceMessage :=
  let* text := lift (dict_get data "text" (PStr "")) in
  let* language := lift (dict_get data "language" (PStr "en")) in
  let* is_outgoing := lift (dict_get data "is_outgoing" (PBool false)) in
  let* translation := lift (dict_get data "translation" PNone) in
  let* message := __init__ text language is_outgoing translation in
  let* provided := lift (contains data (PStr "timestamp")) in
  if provided : bool then
    try_except_ValueError
      (let* raw := lift (getitem data (PStr "timestamp")) in
       let* t := lift (fromisoformat raw) in
       ret (set_timestamp t message))
      (ret message)
  else ret message.

(** What [from_dict] gives the timestamp of a record whose entry, when
    there is one, is a string. *)
Definition loaded_timestamp (d : list (pyval * pyval)) (current : datetime)
  : datetime :=
  match dict_lookup (PStr "timestamp") d with
  | Some (PStr s) => default current (parse_isoformat s)
  | _ => current
  end.

Definition timestamp_is_str_or_absent (d : list (pyval * pyval)) : bool :=
  match dict_lookup (PStr "timestamp") d with
  | Some (PStr _) | None => true
  | Some _ => false
  end.

End Message.
End Message.
Export Message.

(** ** [class SessionManager] *)

Module Session.
Section Session.
Context `{PyLib}.

(** What the four lookups of the manager in [self.config] evaluate to.
    [Config.get], [get_bool] and [get_int] return the configured value,
    or the fallback when the section or the option is missing, and let
    every other exception of configparser through: an
    [InterpolationError] for a value such as [%USERPROFILE%], and from
    [getboolean] a [ValueError] for a value that is no boolean.
    [save_dir] is
    [Path(self.config.get("session", "save_dir", str(Path.home() / ".gaming_translator" / "sessions")))],
    whose fallback is computed first and raises [RuntimeError] when there
    is no home directory, and [export_dir] is the same with
    ["export_dir"] and ["exports"]; [cfg_auto_save] is
    [config.get_bool("session", "auto_save", True)] and
    [cfg_auto_save_interval] is
    [config.get_int("session", "auto_save_interval", 300)]. *)
Record Config : Type := {
  save_dir : outcome string;
  export_dir : outcome string;
  cfg_auto_save : outcome bool;
  cfg_auto_save_interval : outcome Z
}.

(** The attributes of a manager.  The timer thread that [__init__]
    starts when [auto_save] is set is not part of this state. *)
Record SessionManager : Type := {
  config : Config;
  messages : list VoiceMessage;
  session_id : pyval;
  start_time : datetime;
  user_languages : pyval;
  stats : pyval;
  auto_save : bool;
  auto_save_interval : Z
}.

Definition set_messages (v : list VoiceMessage) (s : SessionManager) :=
  {| config := config s; messages := v; session_id := session_id s;
     start_time := start_time s; user_languages := user_languages s;
     stats := stats s; auto_save := auto_save s;
     auto_save_interval := auto_save_interval s |}.
Definition set_session_id (v : pyval) (s : SessionManager) :=
  {| config := config s; messages := messages s; session_id := v;
     start_time := start_time s; user_languages := user_languages s;
     stats := stats s; auto_save := auto_save s;
     auto_save_interval := auto_save_interval s |}.
Definition set_start_time (v : datetime) (s : SessionManager) :=
  {| config := config s; messages := messages s; session_id := session_id s;
     start_time := v; user_languages := user_languages s;
     stats := stats s; auto_save := auto_save s;
     auto_save_interval := auto_save_interval s |}.
Definition set_user_languages (v : pyval) (s : SessionManager) :=
  {| config := config s; messages := messages s; session_id := session_id s;
     start_time := start_time s; user_languages := v;
     stats := stats s; auto_save := auto_save s;
     auto_save_interval := auto_save_interval s |}.
Definition set_stats (v : pyval) (s : SessionManager) :=
  {| config := config s; messages := messages s; session_id := session_id s;
     start_time := start_time s; user_languages := user_languages s;
     stats := v; auto_save := auto_save s;
     auto_save_interval := auto_save_interval s |}.

(** A method runs on the manager and the world around it. *)
Definition machine : Type := SessionManager * world.

Definition self_ : St machine SessionManager := fun s => (Ok (fst s), s).
Definition update (f : SessionManager -> SessionManager) : St machine unit :=
  modify (fun s : machine => (f (fst s), snd s)).
Definition io {A} (c : St world A) : St machine A :=
  zoom snd (fun w (s : machine) => (fst s, w)) c.

Definition empty_stats : pyval :=
  PDict [ (PStr "total_messages", PInt 0);
          (PStr "outgoing_messages", PInt 0);
          (PStr "incoming_messages", PInt 0);
          (PStr "languages", PDict []);
          (PStr "word_count", PInt 0) ].

Definition __init__ (config : Config) : St world SessionManager :=
  let* t_id := now in
  let* t_start := now in
  (* Auto-save settings *)
  let* auto_save := lift (cfg_auto_save config) in
  let* auto_save_interval := lift (cfg_auto_save_interval config) in
  ret {| config := config;
         messages := [];
         session_id := PStr (strftime t_id "%Y%m%d_%H%M%S");
         start_time := t_start;
         user_languages := PDict [];
         stats := empty_stats;
         auto_save := auto_save;
         auto_save_interval := auto_save_interval |}.

(** [self.stats[key] += n] *)
Definition stats_add (key : string) (n : Z) : St SessionManager unit :=
  let* self := get in
  let* old := lift (getitem (stats self) (PStr key)) in
  let* new := lift (add_int old n) in
  let* stats' := lift (setitem (stats self) (PStr key) new) in
  modify (set_stats stats').

(** [self.stats["languages"][lang] = v]: the dict under ["languages"]
    is changed in place. *)
Definition languages_set (lang v : pyval) : St SessionManager unit :=
  let* self := get in
  let* languages := lift (getitem (stats self) (PStr "languages")) in
  let* languages' := lift (setitem languages lang v) in
  let* stats' := lift (setitem (stats self) (PStr "languages") languages') in
  modify (set_stats stats').

Definition add_message (message : VoiceMessage) : St SessionManager VoiceMessage :=
  do modify (fun self => set_messages (messages self ++ [message]) self) then
  (* Update statistics *)
  do stats_add "total_messages" 1 then
  do (if truthy (is_outgoing message)
      then stats_add "outgoing_messages" 1
      else stats_add "incoming_messages" 1) then
  (* Update language statistics *)
  let* self := get in
  let* languages := lift (getitem (stats self) (PStr "languages")) in
  let* known := lift (contains languages (language message)) in
  do (if negb known then languages_set (language message) (PInt 0) else ret tt) then
  let* self := get in
  let* languages := lift (getitem (stats self) (PStr "languages")) in
  let* count := lift (getitem languages (language message)) in
  let* count' := lift (add_int count 1) in
  do languages_set (language message) count' then
  (* Update word count *)
  let* self := get in
  let* old := lift (getitem (stats self) (PStr "word_count")) in
  let* n := lift (word_count_of (text message)) in
  let* new := lift (add_int old n) in
  let* stats' := lift (setitem (stats self) (PStr "word_count") new) in
  do modify (set_stats stats') then
  (* Return the message for chaining *)
  ret message.

Definition path_join (dir name : string) : string := dir +:+ "/" +:+ name.

(** The record [save_session] and [_export_json] write. *)
Definition session_data (self : SessionManager) (end_time : datetime) : pyval :=
  PDict [ (PStr "session_id", session_id self);
          (PStr "start_time", PStr (isoformat (start_time self)));
          (PStr "end_time", PStr (isoformat end_time));
          (PStr "stats", stats self);
          (PStr "user_languages", user_languages self);
          (PStr "messages", PList (map to_dict (messages self))) ].

Definition save_session (path : option string) : St machine bool :=
  let* self := self_ in
  match messages self with
  | [] => ret false
  | _ :: _ =>
      try_except
        ((* Determine save path *)
         let* path :=
           match path with
           | Some p => ret p
           | None =>
               let* sessions_dir := lift (save_dir (config self)) in
               do io (mkdir sessions_dir) then
               ret (path_join sessions_dir
                      ("session_" +:+ py_str (session_id self) +:+ ".json"))
           end in
         (* Prepare data *)
         let* end_time := io now in
         (* Save to file *)
         do io (json_dump path (session_data self end_time)) then
         ret true)
        (fun _ => ret false)
  end.

Definition load_session (path : string) : St machine bool :=
  try_except
    (let* session_data := io (read_json path) in
     (* Clear current session *)
     do update (set_messages []) then
     (* Load metadata *)
     let* self := self_ in
     let* sid := lift (dict_get session_data "session_id" (session_id self)) in
     do update (set_session_id sid) then
     do try_except_ValueError
          (let* self := self_ in
           let* raw := lift (dict_get session_data "start_time"
                               (PStr (isoformat (start_time self)))) in
           let* t := lift (fromisoformat raw) in
           update (set_start_time t))
          (ret tt) then
     let* langs := lift (dict_get session_data "user_languages" (PDict [])) in
     do update (set_user_languages langs) then
     let* self := self_ in
     let* stats' := lift (dict_get session_data "stats" (stats self)) in
     do update (set_stats stats') then
     (* Load messages *)
     let* raw_messages := lift (dict_get session_data "messages" (PList [])) in
     let* items := lift (iterate raw_messages) in
     do for_each items (fun msg_data =>
          let* message := io (from_dict msg_data) in
          update (fun self => set_messages (messages self ++ [message]) self)) then
     ret true)
    (fun _ => ret false).

(** The method on a whole number of seconds, an [int] or a float whose
    value is integral: [//] rounds down and [%] takes the sign of the
    divisor, as [Z.div] and [Z.modulo] do; an integer in an f-string is
    written in decimal. *)
Definition _format_duration (seconds : Z) : string :=
  let hours := seconds / 3600 in
  let minutes := (seconds mod 3600) / 60 in
  let seconds := seconds mod 60 in
  if 0 <? hours
  then pretty hours +:+ "h " +:+ pretty minutes +:+ "m " +:+ pretty seconds +:+ "s"
  else if 0 <? minutes
       then pretty minutes +:+ "m " +:+ pretty seconds +:+ "s"
       else pretty seconds +:+ "s".

Definition clear : St machine unit :=
  do update (set_messages []) then
  do update (set_stats empty_stats) then
  (* Reset session ID and start time *)
  let* t_id := io now in
  do update (set_session_id (PStr (strftime t_id "%Y%m%d_%H%M%S"))) then
  let* t_start := io now in
  update (set_start_time t_start).

(** *** The five serializers *)

Definition nl : string := String (ascii_of_nat 10) "".
Definition date_time_format : string := "%Y-%m-%d %H:%M:%S".

Definition speaker_of (msg : VoiceMessage) : string :=
  if truthy (is_outgoing msg) then "You" else "Teammate".

Definition text_message (msg : VoiceMessage) : St (list fragment) unit :=
  do emit [Text ("[" +:+ strftime (timestamp msg) "%H:%M:%S" +:+ "] "
                 +:+ speaker_of msg +:+ " (" +:+ py_str (language msg)
                 +:+ "): " +:+ py_str (text msg) +:+ nl)] then
  if truthy (translation msg)
  then emit [Text "   "; Block "arrow";
             Text (" " +:+ py_str (translation msg) +:+ nl)]
  else ret tt.

Definition _export_text (path : string) : St machine bool :=
  try_except
    (let* self := self_ in
     do io (open_w path) then
     let* end_time := io now in
     do io (with_open_w path
          (do emit [Text ("=== Gaming Voice Chat Translator - Conversation Log ==="
                          +:+ nl)] then
           do emit [Text ("Session ID: " +:+ py_str (session_id self) +:+ nl)] then
           do emit [Text ("Start time: "
                          +:+ strftime (start_time self) date_time_format +:+ nl)] then
           do emit [Text ("End time: " +:+ strftime end_time date_time_format
                          +:+ nl)] then
           let* total := lift (getitem (stats self) (PStr "total_messages")) in
           do emit [Text ("Total messages: " +:+ py_str total +:+ nl)] then
           do emit [Text nl] then
           for_each (messages self) text_message)) then
     ret true)
    (fun _ => ret false).

(** [', '.join(v.keys())] *)
Definition join_keys (v : pyval) : outcome string :=
  match v with
  | PDict d =>
      if forallb (fun k => match k with PStr _ => true | _ => false end) (map fst d)
      then Ok (String.concat ", " (map py_str (map fst d)))
      else Raise TypeError
  | _ => Raise AttributeError
  end.

(** [GAMING_LANGUAGES.get(lang_code, {})] needs a hashable code. *)
Definition html_message (msg : VoiceMessage) : St (list fragment) unit :=
  if hashable (language msg) then
    do emit [Block "message"; Text (if truthy (is_outgoing msg)
                                    then "outgoing" else "incoming");
             Text (strftime (timestamp msg) "%H:%M:%S");
             Text (speaker_of msg); Text (py_str (text msg));
             LangFlag (language msg); LangName (language msg)] then
    do (if truthy (translation msg)
        then emit [Block "translation"; Text (py_str (translation msg))]
        else ret tt) then
    emit [Block "message_end"]
  else raise TypeError.

Definition _export_html (path : string) : St machine bool :=
  try_except
    (let* self := self_ in
     do io (open_w path) then
     let* end_time := io now in
     do io (with_open_w path
          (do emit [Block "html_header"] then
           let* total := lift (getitem (stats self) (PStr "total_messages")) in
           let* outgoing := lift (getitem (stats self) (PStr "outgoing_messages")) in
           let* incoming := lift (getitem (stats self) (PStr "incoming_messages")) in
           let* languages := lift (getitem (stats self) (PStr "languages")) in
           let* used := lift (join_keys languages) in
           do emit [Block "session_info"; Text (py_str (session_id self));
                    Text (strftime (start_time self) date_time_format);
                    Text (strftime end_time date_time_format);
                    Text (py_str total); Text (py_str outgoing);
                    Text (py_str incoming); Text used] then
           do for_each (messages self) html_message then
           emit [Block "html_footer"])) then
     ret true)
    (fun _ => ret false).

Definition _export_json (path : string) : St machine bool :=
  try_except
    (let* self := self_ in
     let* end_time := io now in
     do io (json_dump path (session_data self end_time)) then
     ret true)
    (fun _ => ret false).

Definition pdf_message (msg : VoiceMessage) : outcome (list pdf_element) :=
  if hashable (language msg) then
    Ok ([Paragraph [Text ("[" +:+ strftime (timestamp msg) "%H:%M:%S"
                          +:+ "] <b>" +:+ speaker_of msg +:+ "</b> (");
                    LangName (language msg);
                    Text ("): " +:+ py_str (text msg))]
           (if truthy (is_outgoing msg)
            then "MessageOutgoing" else "MessageIncoming")]
        ++ (if truthy (translation msg)
            then [Paragraph [Block "arrow";
                             Text (" " +:+ py_str (translation msg))]
                    "Translation"]
            else [])
        ++ [Spacer 1 6])
  else Raise TypeError.

Fixpoint pdf_messages (msgs : list VoiceMessage) : outcome (list pdf_element) :=
  match msgs with
  | [] => Ok []
  | msg :: rest =>
      match pdf_message msg with
      | Ok es => match pdf_messages rest with
                 | Ok es' => Ok (es ++ es')
                 | Raise e => Raise e
                 end
      | Raise e => Raise e
      end
  end.

Definition _export_pdf (path : string) : St machine bool :=
  try_except
    (let* self := self_ in
     let* w := io get in
     match reportlab w with
     | None => ret false
     | Some lib =>
         do lift (prepare_styles lib) then
         let* end_time := io now in
         let* total := lift (getitem (stats self) (PStr "total_messages")) in
         let* body := lift (pdf_messages (messages self)) in
         let elements :=
           [ Paragraph [Text "Gaming Voice Chat Translator"] "Title";
             Paragraph [Text "Conversation Log"] "Heading2";
             Spacer 1 12;
             Paragraph [Text ("<b>Session ID:</b> " +:+ py_str (session_id self))]
               "Normal";
             Paragraph [Text ("<b>Start time:</b> "
                              +:+ strftime (start_time self) date_time_format)]
               "Normal";
             Paragraph [Text ("<b>End time:</b> "
                              +:+ strftime end_time date_time_format)] "Normal";
             Paragraph [Text ("<b>Total messages:</b> " +:+ py_str total)] "Normal";
             Spacer 1 12 ] ++ body in
         let* f := lift (build lib elements) in
         do io (write_file path f) then
         ret true
     end)
    (fun _ => ret false).

Definition csv_cell (v : pyval) : string :=
  match v with
  | PNone => ""
  | _ => py_str v
  end.

Definition csv_row (msg : VoiceMessage) : list string :=
  [ strftime (timestamp msg) date_time_format;
    speaker_of msg;
    csv_cell (language msg);
    csv_cell (text msg);
    csv_cell (if truthy (translation msg) then translation msg else PStr "") ].

Definition _export_csv (path : string) : St machine bool :=
  try_except
    (let* self := self_ in
     do io (write_file path
              (CsvFile (["Timestamp"; "Speaker"; "Language"; "Text"; "Translation"]
                        :: map csv_row (messages self)))) then
     ret true)
    (fun _ => ret false).

Definition export_session (format_type : string) (path : option string)
  : St machine bool :=
  let* self := self_ in
  match messages self with
  | [] => ret false
  | _ :: _ =>
      (* Determine export path *)
      let* path :=
        match path with
        | Some p => ret p
        | None =>
            let* export_dir := lift (export_dir (config self)) in
            do io (mkdir export_dir) then
            let ext :=
              if String.eqb format_type "txt" then ".txt"
              else if String.eqb format_type "html" then ".html"
              else if String.eqb format_type "json" then ".json"
              else if String.eqb format_type "pdf" then ".pdf"
              else if String.eqb format_type "csv" then ".csv"
              else ".txt" in
            ret (path_join export_dir
                   ("export_" +:+ py_str (session_id self) +:+ ext))
        end in
      (* Call appropriate export method *)
      try_except
        (if String.eqb format_type "txt" then _export_text path
         else if String.eqb format_type "html" then _export_html path
         else if String.eqb format_type "json" then _export_json path
         else if String.eqb format_type "pdf" then _export_pdf path
         else if String.eqb format_type "csv" then _export_csv path
         else _export_text path)
        (fun _ => ret false)
  end.

End Session.
End Session.
Export Session.

(** ** The statistics, recomputed from the log *)

Module Recomputation.
Section Recomputation.
Context `{PyLib}.

(** A recomputation over the log, in the words of the specification. *)

Definition count_if {A} (p : A -> bool) (l : list A) : Z :=
  Z.of_nat (length (List.filter p l)).

Definition recomputed_total (msgs : list VoiceMessage) : Z :=
  Z.of_nat (length msgs).
Definition recomputed_outgoing (msgs : list VoiceMessage) : Z :=
  count_if (fun m => truthy (is_outgoing m)) msgs.
Definition recomputed_incoming (msgs : list VoiceMessage) : Z :=
  count_if (fun m => negb (truthy (is_outgoing m))) msgs.
Definition recomputed_language (l : string) (msgs : list VoiceMessage) : Z :=
  count_if (fun m => py_eqb (language m) (PStr l)) msgs.
Definition words_of (m : VoiceMessage) : Z :=
  match text m with
  | PStr s => Z.of_nat (length (split s))
  | _ => 0
  end.
Definition recomputed_words (msgs : list VoiceMessage) : Z :=
  fold_right Z.add 0 (map words_of msgs).

(** A message of the data model: its text and its language are
    strings. *)
Definition well_typed (m : VoiceMessage) : bool :=
  match text m, language m with
  | PStr _, PStr _ => true
  | _, _ => false
  end.

(** A sequence of [add_message] calls. *)
Definition add_messages (msgs : list VoiceMessage) : St SessionManager unit :=
  for_each msgs (fun m => do add_message m then ret tt).

(** The shape [__init__] and [clear] give [self.stats]. *)
Definition stats_dict (total outgoing incoming : Z)
    (languages : list (pyval * pyval)) (words : Z) : pyval :=
  PDict [ (PStr "total_messages", PInt total);
          (PStr "outgoing_messages", PInt outgoing);
          (PStr "incoming_messages", PInt incoming);
          (PStr "languages", PDict languages);
          (PStr "word_count", PInt words) ].

(** What [add_message] does to the language map. *)
Definition tally (lang : string) (languages : list (pyval * pyval))
  : list (pyval * pyval) :=
  match dict_lookup (PStr lang) languages with
  | Some (PInt n) => dict_set (PStr lang) (PInt (n + 1)) languages
  | _ => dict_set (PStr lang) (PInt 1) (dict_set (PStr lang) (PInt 0) languages)
  end.

(** The maintained statistics are those a recomputation over the log
    gives: the four counters, and a language map whose keys are strings,
    each once, and which holds, for each language, the number of its
    messages, and no entry for a language without messages. *)
Definition stats_agree (self : SessionManager) : Prop :=
  exists langs,
    stats self
    = stats_dict (recomputed_total (messages self))
        (recomputed_outgoing (messages self))
        (recomputed_incoming (messages self))
        langs
        (recomputed_words (messages self))
    /\ Forall is_str (map fst langs)
    /\ NoDup (map fst langs)
    /\ forall l,
         dict_lookup (PStr l) langs
         = if recomputed_language l (messages self) =? 0 then None
           else Some (PInt (recomputed_language l (messages self))).

(** A manager as [__init__] or [clear] leaves it. *)
Inductive pristine : SessionManager -> Prop :=
| pristine_init (cfg : Config) (w w' : world) (self : SessionManager) :
    Session.__init__ cfg w = (Ok self, w') -> pristine self
| pristine_clear (s self : SessionManager) (w w' : world) :
    clear (s, w) = (Ok tt, (self, w')) -> pristine self.

End Recomputation.
End Recomputation.
Export Recomputation.

(** ** [core/translator.py] *)

Module Translation.

(** [class BaseTranslator(ABC)]: the two abstract methods, over the
    state of the implementing object.  The arguments of
    [translate_text] are the text, the target language and the source
    language, in the order of the source. *)
Class BaseTranslator (T : Type) : Type := {
  translate_text : string -> string -> string -> St T (option string);
  detect_language : string -> St T string
}.

(** *** [class GoogleTranslator] *)

Inductive backend_call : Type :=
| CallTranslate (text src dest : string)
| CallDetect (text : string).

(** A [googletrans.Translator] object: a remote service, whose answer
    (the [text] of the result, the [lang] of the detection, or an
    exception) may depend on the calls made before. *)
Record googletrans : Type := {
  translate : list backend_call -> string -> string -> string -> outcome string;
  detect : list backend_call -> string -> outcome string
}.

(** [calls] is the record of the calls made on [self.translator], latest
    last, as a mock keeps it. *)
Record GoogleTranslator : Type := {
  translator : option googletrans;
  calls : list backend_call
}.

Definition log_call (c : backend_call) (self : GoogleTranslator) : GoogleTranslator :=
  {| translator := translator self; calls := calls self ++ [c] |}.

(** The constructor raises again what importing or instantiating
    googletrans raised, so an object that exists has its translator. *)
Definition GoogleTranslator__init__ (lib : outcome googletrans)
  : outcome GoogleTranslator :=
  match lib with
  | Ok g => Ok {| translator := Some g; calls := [] |}
  | Raise e => Raise e
  end.

Definition GoogleTranslator_translate_text
    (text target_language source_language : string)
  : St GoogleTranslator (option string) :=
  let* self := get in
  match translator self with
  | None => ret None
  | Some g =>
      if String.eqb text "" then ret None
      else
        try_except
          ((* Skip translation if source and target are the same *)
           if String.eqb source_language target_language
              && negb (String.eqb source_language "auto")
           then ret (Some text)
           else
             do modify (log_call (CallTranslate text source_language target_language)) then
             let* result := lift (translate g (calls self) text source_language
                                    target_language) in
             ret (Some result))
          (fun _ => ret None)
  end.

Definition GoogleTranslator_detect_language (text : string)
  : St GoogleTranslator string :=
  let* self := get in
  match translator self with
  | None => ret "en"
  | Some g =>
      if String.eqb text "" then ret "en"
      else
        try_except
          (do modify (log_call (CallDetect text)) then
           lift (detect g (calls self) text))
          (fun _ => ret "en")
  end.

#[export] Instance GoogleTranslator_BaseTranslator : BaseTranslator GoogleTranslator := {
  translate_text := GoogleTranslator_translate_text;
  detect_language := GoogleTranslator_detect_language
}.

(** [Translator.create_translator]: a failed import becomes a
    [ValueError]; anything else the constructor raises goes on. *)
Definition create_translator (lib : outcome googletrans) : outcome GoogleTranslator :=
  match lib with
  | Raise ImportError => Raise ValueError
  | _ => GoogleTranslator__init__ lib
  end.

(** *** [class CachedTranslator] *)

Section Cached.
Context {T : Type} `{BaseTranslator T}.

(** [delegated] is the record of the calls made on
    [self.base_translator.translate_text], latest last. *)
Record CachedTranslator : Type := {
  base_translator : T;
  cache : gmap (string * string * string) string;
  cache_size : Z;
  delegated : list (string * string * string)
}.

Definition set_base (b : T) (self : CachedTranslator) : CachedTranslator :=
  {| base_translator := b; cache := cache self;
     cache_size := cache_size self; delegated := delegated self |}.
Definition set_cache (c : gmap (string * string * string) string)
    (self : CachedTranslator) : CachedTranslator :=
  {| base_translator := base_translator self; cache := c;
     cache_size := cache_size self; delegated := delegated self |}.
Definition log_delegation (args : string * string * string)
    (self : CachedTranslator) : CachedTranslator :=
  {| base_translator := base_translator self; cache := cache self;
     cache_size := cache_size self; delegated := delegated self ++ [args] |}.

(** [configured_size] is [config.get_int("translation", "cache_size",
    1000)]. *)
Definition CachedTranslator__init__ (configured_size : Z) (base : T)
  : CachedTranslator :=
  {| base_translator := base; cache := ∅;
     cache_size := configured_size; delegated := [] |}.

(** Truth value of an [Optional[str]]. *)
Definition truthy_result (r : option string) : bool :=
  match r with
  | Some s => negb (String.eqb s "")
  | None => false
  end.

Definition CachedTranslator_translate_text
    (text target_language source_language : string)
  : St CachedTranslator (option string) :=
  if String.eqb text "" then ret None
  else
    (* Create cache key *)
    let cache_key := (text, source_language, target_language) in
    let* self := get in
    (* Check cache *)
    match cache self !! cache_key with
    | Some cached => ret (Some cached)
    | None =>
        (* Translate *)
        do modify (log_delegation (text, target_language, source_language)) then
        let* result := zoom base_translator set_base
                         (translate_text text target_language source_language) in
        (* Cache result *)
        let* self := get in
        do (if truthy_result result
               && (Z.of_nat (size (cache self)) <? cache_size self)
            then match result with
                 | Some r => modify (set_cache (<[cache_key := r]> (cache self)))
                 | None => ret tt
                 end
            else ret tt) then
        ret result
    end.

Definition CachedTranslator_detect_language (text : string)
  : St CachedTranslator string :=
  zoom base_translator set_base (detect_language text).

(** The operations a caller can perform on a cached translator. *)
Inductive operation : Type :=
| TranslateText (text target_language source_language : string)
| DetectLanguage (text : string).

(** The translator after an operation, whatever it returned or
    raised. *)
Definition perform (o : operation) (self : CachedTranslator) : CachedTranslator :=
  match o with
  | TranslateText text target source =>
      snd (CachedTranslator_translate_text text target source self)
  | DetectLanguage text => snd (CachedTranslator_detect_language text self)
  end.

Definition perform_all (os : list operation) (self : CachedTranslator)
  : CachedTranslator :=
  fold_left (fun s o => perform o s) os self.

(** The keys of a cache reached from the constructor have a non-empty
    text. *)
Definition keys_nonempty (self : CachedTranslator) : Prop :=
  forall text source target,
    is_Some (cache self !! (text, source, target)) -> text <> "".

(** The cache holds no more entries than the capacity, or none when
    the capacity is negative. *)
Definition bounded (self : CachedTranslator) : Prop :=
  Z.of_nat (size (cache self)) <= Z.max 0 (cache_size self).

End Cached.

Arguments CachedTranslator T : clear implicits.

#[export] Instance CachedTranslator_BaseTranslator {T} `{BaseTranslator T}
  : BaseTranslator (CachedTranslator T) := {
  translate_text := CachedTranslator_translate_text;
  detect_language := CachedTranslator_detect_language
}.

End Translation.
Export Translation.

(** ** Words for what the methods do

    The outcomes that the theorems on the whole methods speak of. *)

Module Behaviour.
Section Behaviour.
Context `{PyLib}.

(** A method that leaves the manager as it was, whatever it returns or
    raises and whatever it does to the world. *)
Definition keeps_self {A} (c : St machine A) : Prop :=
  forall self w, exists r w', c (self, w) = (r, (self, w')).

(** The files, the configuration and the autosave settings are the
    same in both states. *)
Definition loads_only (s s' : machine) : Prop :=
  files (snd s') = files (snd s)
  /\ config (fst s') = config (fst s)
  /\ auto_save (fst s') = auto_save (fst s)
  /\ auto_save_interval (fst s') = auto_save_interval (fst s).

(** A method that changes nothing but what loading may change. *)
Definition reads_only {A} (c : St machine A) : Prop :=
  forall s r s', c s = (r, s') -> loads_only s s'.

(** The serializer [export_session] calls for a format. *)
Definition serializer_for (format_type : string) : string -> St machine bool :=
  if String.eqb format_type "txt" then _export_text
  else if String.eqb format_type "html" then _export_html
  else if String.eqb format_type "json" then _export_json
  else if String.eqb format_type "pdf" then _export_pdf
  else if String.eqb format_type "csv" then _export_csv
  else _export_text.

(** The file [save_session] opens for writing, if it gets that far:
    the log is not empty; without a given path, the lookup of the save
    directory returns and the directory can be made; and the file can be
    opened. *)
Definition save_opens (self : SessionManager) (path : option string)
    (w : world) : option string :=
  match messages self with
  | [] => None
  | _ :: _ =>
      match path with
      | Some p => if writable w p then Some p else None
      | None =>
          match save_dir (config self) with
          | Ok sessions_dir =>
              let p := path_join sessions_dir
                         ("session_" +:+ py_str (session_id self) +:+ ".json") in
              if can_mkdir w sessions_dir && writable w p then Some p else None
          | Raise _ => None
          end
      end
  end.

(** Whether [export_session] is stopped before its [try] block: the log
    is not empty, no path was given, and the lookup of the export
    directory raises or the directory cannot be made. *)
Definition export_blocked (self : SessionManager) (path : option string)
    (w : world) : bool :=
  match messages self, path with
  | _ :: _, None =>
      match export_dir (config self) with
      | Ok dir => negb (can_mkdir w dir)
      | Raise _ => true
      end
  | _, _ => false
  end.

(** The formats [export_session] knows by name. *)
Definition known_formats : list string := ["txt"; "html"; "json"; "pdf"; "csv"].

(** No two of the keys are equal. *)
Fixpoint distinct_keys (ks : list pyval) : bool :=
  match ks with
  | [] => true
  | k :: rest => negb (existsb (key_eqb k) rest) && distinct_keys rest
  end.

(** A value as [json.load] gives it: every dict in it has string keys,
    each once. *)
Fixpoint plain_json (v : pyval) : bool :=
  match v with
  | PList l => forallb plain_json l
  | PDict d =>
      forallb (fun kv => match fst kv with PStr _ => true | _ => false end) d
      && distinct_keys (map fst d)
      && forallb (fun kv => plain_json (snd kv)) d
  | _ => true
  end.

(** The fields of a message, and the values of a session, are plain
    JSON. *)
Definition plain_message (m : VoiceMessage) : bool :=
  plain_json (text m) && plain_json (language m)
  && plain_json (is_outgoing m) && plain_json (translation m).

Definition plain_session (self : SessionManager) : bool :=
  plain_json (session_id self) && plain_json (user_languages self)
  && plain_json (stats self) && forallb plain_message (messages self).

(** A message as it is read back from a saved session. *)
Definition reload_message (m : VoiceMessage) : VoiceMessage :=
  {| text := json_reload (text m);
     language := json_reload (language m);
     is_outgoing := json_reload (is_outgoing m);
     translation := json_reload (translation m);
     timestamp := timestamp m |}.

(** The manager [other] after it has loaded what [self] saved. *)
Definition reloaded (self other : SessionManager) : SessionManager :=
  {| config := config other;
     messages := map reload_message (messages self);
     session_id := json_reload (session_id self);
     start_time := start_time self;
     user_languages := json_reload (user_languages self);
     stats := json_reload (stats self);
     auto_save := auto_save other;
     auto_save_interval := auto_save_interval other |}.

End Behaviour.

Section CacheValues.
Context {T : Type} `{BaseTranslator T}.

(** No empty translation is in the cache. *)
Definition values_nonempty (self : CachedTranslator T) : Prop :=
  forall key v, cache self !! key = Some v -> v <> "".

End CacheValues.

End Behaviour.
Export Behaviour.

(** ** The bounded translation cache of the specification *)

Module TranslationCache.

(** Modelled from the spec: the class [TranslationCache] that
    [tests/test_translator.py] imports from [core/translator.py] and the
    source file does not define; its entries, its capacity and its two
    counters (section 4.1, and the attributes the tests read). *)
Record TranslationCache : Type := {
  cache : gmap (string * string * string) string;
  max_size : Z;
  hits : nat;
  misses : nat
}.

(** Modelled from the spec: the constructor of the missing class, with
    an empty cache and both counters at zero. *)
Definition __init__ (max_size : Z) : TranslationCache :=
  {| cache := ∅; max_size := max_size; hits := 0; misses := 0 |}.

(** Modelled from the spec: [get] of the missing class: "returns None
    and increments a miss counter if absent; returns the cached value and
    increments a hit counter if present". *)
Definition get (text source_lang target_lang : string)
  : St TranslationCache (option string) :=
  fun self =>
    match cache self !! (text, source_lang, target_lang) with
    | Some value =>
        (Ok (Some value),
         {| cache := cache self; max_size := max_size self;
            hits := S (hits self); misses := misses self |})
    | None =>
        (Ok None,
         {| cache := cache self; max_size := max_size self;
            hits := hits self; misses := S (misses self) |})
    end.

(** Modelled from the spec: [set] of the missing class: "inserts the
    mapping only if current size < capacity; if at capacity, the call is
    a no-op". *)
Definition set (text source_lang target_lang value : string)
  : St TranslationCache unit :=
  fun self =>
    if Z.of_nat (size (cache self)) <? max_size self
    then (Ok tt,
          {| cache := <[(text, source_lang, target_lang) := value]> (cache self);
             max_size := max_size self; hits := hits self;
             misses := misses self |})
    else (Ok tt, self).

(** Modelled from the spec: [clear] of the missing class: "empties all
    entries; counters are ... NOT reset". *)
Definition clear : St TranslationCache unit :=
  fun self =>
    (Ok tt, {| cache := ∅; max_size := max_size self; hits := hits self;
               misses := misses self |}).

(** Modelled from the spec: the record [get_stats] of the missing class
    returns; the rate is an exact rational. *)
Record cache_stats : Type := {
  stat_size : nat;
  stat_hits : nat;
  stat_misses : nat;
  stat_hit_rate : Q
}.

Definition Q_of_nat (n : nat) : Q := inject_Z (Z.of_nat n).

(** Modelled from the spec: [get_stats] of the missing class:
    "hit_rate = hits / (hits+misses) * 100, defined as 0 when no lookups
    have occurred yet". *)
Definition get_stats (self : TranslationCache) : cache_stats :=
  let total := (hits self + misses self)%nat in
  {| stat_size := size (cache self);
     stat_hits := hits self;
     stat_misses := misses self;
     stat_hit_rate :=
       if (total =? 0)%nat then 0%Q
       else (Q_of_nat (hits self) / Q_of_nat total * 100)%Q |}.

(** The calls a client makes, and a run of them that keeps what each
    lookup returned. *)
Inductive call : Type :=
| CallGet (text source_lang target_lang : string)
| CallSet (text source_lang target_lang value : string)
| CallClear.

Fixpoint run (cs : list call) (self : TranslationCache)
  : list (option string) * TranslationCache :=
  match cs with
  | [] => ([], self)
  | CallGet t s g :: rest =>
      match get t s g self with
      | (Ok r, self') => let '(rs, final) := run rest self' in (r :: rs, final)
      | (Raise _, self') => run rest self'
      end
  | CallSet t s g v :: rest => run rest (snd (set t s g v self))
  | CallClear :: rest => run rest (snd (clear self))
  end.

Definition found (r : option string) : bool :=
  match r with Some _ => true | None => false end.

(** The lookups of a run that found their key, and those that did not. *)
Definition hit_count (rs : list (option string)) : nat :=
  length (List.filter found rs).
Definition miss_count (rs : list (option string)) : nat :=
  length (List.filter (fun r => negb (found r)) rs).

(** The rate the specification writes [h/(h+m)*100]. *)
Definition rate (h m : nat) : Q :=
  if (h + m =? 0)%nat then 0%Q
  else (Q_of_nat h / Q_of_nat (h + m) * 100)%Q.

End TranslationCache.

(** ** A reference implementation of the library contract

    Naive datetimes (as [datetime.now()] returns them) with the text
    [isoformat] writes for them, a parser for that text, the numeric
    directives of [strftime], and a rendering of values. *)

Module Reference.

Record civil : Type := {
  year : N; month : N; day : N;
  hour : N; minute : N; second : N; microsecond : N
}.

Definition is_leap (y : N) : bool :=
  ((y mod 4 =? 0) && (negb (y mod 100 =? 0) || (y mod 400 =? 0)))%N.

Definition days_in_month (y m : N) : N :=
  (if m =? 2 then (if is_leap y then 29 else 28)
   else if (m =? 4) || (m =? 6) || (m =? 9) || (m =? 11) then 30
   else 31)%N.

(** The ranges the [datetime] constructor enforces. *)
Definition valid (d : civil) : bool :=
  ((1 <=? year d) && (year d <=? 9999)
   && (1 <=? month d) && (month d <=? 12)
   && (1 <=? day d) && (day d <=? days_in_month (year d) (month d))
   && (hour d <? 24) && (minute d <? 60) && (second d <? 60)
   && (microsecond d <? 1000000))%N.

Definition naive_datetime : Type := { d : civil | valid d = true }.

Definition checked (d : civil) : option naive_datetime :=
  match decide (valid d = true) with
  | left ok => Some (exist _ d ok)
  | right _ => None
  end.

Definition digit_char (k : N) : ascii := ascii_of_N (48 + k).

Definition digit_val (c : ascii) : option N :=
  let n := N_of_ascii c in
  if ((48 <=? n) && (n <=? 57))%N then Some (n - 48)%N else None.

(** The [w] low decimal digits of [n], most significant first. *)
Fixpoint digits (w : nat) (n : N) : list ascii :=
  match w with
  | O => []
  | S w' => digits w' (n / 10)%N ++ [digit_char (n mod 10)%N]
  end.

Fixpoint number_from (acc : N) (cs : list ascii) : option N :=
  match cs with
  | [] => Some acc
  | c :: rest =>
      match digit_val c with
      | Some v => number_from (10 * acc + v)%N rest
      | None => None
      end
  end.

(** The number written by exactly [w] digits at offset [off]. *)
Definition field (w off : nat) (l : list ascii) : option N :=
  let cs := take w (drop off l) in
  if (length cs =? w)%nat then number_from 0%N cs else None.

Definition expect (l : list ascii) (i : nat) (c : ascii) : bool :=
  match l !! i with
  | Some x => Ascii.eqb x c
  | None => false
  end.

Definition isoformat_chars (d : civil) : list ascii :=
  digits 4 (year d) ++ ["-"%char] ++ digits 2 (month d) ++ ["-"%char]
  ++ digits 2 (day d) ++ ["T"%char]
  ++ digits 2 (hour d) ++ [":"%char] ++ digits 2 (minute d) ++ [":"%char]
  ++ digits 2 (second d)
  ++ (if (microsecond d =? 0)%N then []
      else ["."%char] ++ digits 6 (microsecond d)).

Definition isoformat (d : naive_datetime) : string :=
  string_of_list_ascii (isoformat_chars (proj1_sig d)).

(** [YYYY-MM-DD], then nothing or any one separator and [HH:MM:SS],
    then nothing or a point and three or six digits. *)
Definition parse_civil (l : list ascii) : option civil :=
  if expect l 4 "-" && expect l 7 "-" then
    y ← field 4 0 l; m ← field 2 5 l; d ← field 2 8 l;
    match drop 10 l with
    | [] => Some {| year := y; month := m; day := d; hour := 0; minute := 0;
                    second := 0; microsecond := 0 |}
    | _ :: t =>
        if expect t 2 ":" && expect t 5 ":" then
          h ← field 2 0 t; mi ← field 2 3 t; s ← field 2 6 t;
          us ← match drop 8 t with
               | [] => Some 0%N
               | point :: f =>
                   if Ascii.eqb point "." then
                     if (length f =? 6)%nat then number_from 0%N f
                     else if (length f =? 3)%nat
                          then ms ← number_from 0%N f; Some (ms * 1000)%N
                          else None
                   else None
               end;
          Some {| year := y; month := m; day := d; hour := h; minute := mi;
                  second := s; microsecond := us |}
        else None
    end
  else None.

Definition parse_isoformat (s : string) : option naive_datetime :=
  d ← parse_civil (list_ascii_of_string s); checked d.

Definition directive (d : civil) (c : ascii) : list ascii :=
  if Ascii.eqb c "Y" then digits 4 (year d)
  else if Ascii.eqb c "m" then digits 2 (month d)
  else if Ascii.eqb c "d" then digits 2 (day d)
  else if Ascii.eqb c "H" then digits 2 (hour d)
  else if Ascii.eqb c "M" then digits 2 (minute d)
  else if Ascii.eqb c "S" then digits 2 (second d)
  else if Ascii.eqb c "%" then ["%"%char]
  else ["%"%char; c].

Fixpoint strftime_chars (d : civil) (fmt : list ascii) : list ascii :=
  match fmt with
  | [] => []
  | c :: rest =>
      if Ascii.eqb c "%" then
        match rest with
        | [] => [c]
        | x :: rest' => directive d x ++ strftime_chars d rest'
        end
      else c :: strftime_chars d rest
  end.

Definition strftime (d : naive_datetime) (fmt : string) : string :=
  string_of_list_ascii (strftime_chars (proj1_sig d) (list_ascii_of_string fmt)).

(** [str(v)], and [repr(v)] when [quoted]; a string inside a container is
    put between quotes as it is. *)
Fixpoint render (quoted : bool) (v : pyval) {struct v} : string :=
  match v with
  | PNone => "None"
  | PBool true => "True"
  | PBool false => "False"
  | PInt n => pretty n
  | PStr s => if quoted then "'" +:+ s +:+ "'" else s
  | PList l => "[" +:+ String.concat ", " (map (render true) l) +:+ "]"
  | PDict d =>
      "{" +:+ String.concat ", "
                (map (fun kv => render true (fst kv) +:+ ": " +:+ render true (snd kv)) d)
      +:+ "}"
  end.

Definition py_str (v : pyval) : string := render false v.

End Reference.

(** ** A wrapped translator for examples *)

(** A base translator for examples: a phrasebook; a text it does not hold
    has no translation. *)
Module Phrasebook.

Definition phrasebook : Type := list (string * string).

Fixpoint look_up (text : string) (book : phrasebook) : option string :=
  match book with
  | [] => None
  | (source, target) :: rest =>
      if String.eqb text source then Some target else look_up text rest
  end.

#[export] Instance phrasebook_BaseTranslator : BaseTranslator phrasebook := {
  translate_text := fun text _ _ => fun book => (Ok (look_up text book), book);
  detect_language := fun _ => ret "en"
}.

Definition spanish : phrasebook :=
  [("hello", "hola"); ("world", "mundo"); ("test", "prueba")].

(** A cached translator of capacity one, after its first translation. *)
Definition full_translator : CachedTranslator phrasebook :=
  perform (TranslateText "hello" "es" "en") (CachedTranslator__init__ 1 spanish).

(** A googletrans object that always answers with the same text. *)
Definition parrot : googletrans :=
  {| translate := fun _ _ _ _ => Ok "hola";
     detect := fun _ _ => Ok "en" |}.

End Phrasebook.

(** ** The reference implementation meets the contract *)

Lemma digit_val_char (k : N) :
  (k < 10)%N -> Reference.digit_val (Reference.digit_char k) = Some k.
Proof.
  intros Hk.
  assert (k = 0 \/ k = 1 \/ k = 2 \/ k = 3 \/ k = 4 \/ k = 5 \/ k = 6
          \/ k = 7 \/ k = 8 \/ k = 9)%N as Hcases by lia.
  repeat (destruct Hcases as [-> | Hcases]; [reflexivity |]).
  subst k. reflexivity.
Qed.

Lemma mod10_digit (n : N) : (n mod 10 < 10)%N.
Proof. apply N.mod_lt. discriminate. Qed.

(** Each digit character of the goal is replaced by a variable, known
    only by the value it stands for. *)
Ltac name_digits :=
  repeat match goal with
         | |- context [Reference.digit_char (?k mod 10)%N] =>
             let E := fresh "E" in
             let c := fresh "c" in
             pose proof (digit_val_char (k mod 10)%N (mod10_digit k)) as E;
             set (c := Reference.digit_char (k mod 10)%N) in *; clearbody c
         end.

Ltac use_digits :=
  repeat match goal with
         | E : Reference.digit_val ?c = Some _
           |- context [Reference.digit_val ?c] => rewrite E
         end.

(** A number is the sum of its decimal digits: each quotient by ten is
    split into its own quotient and remainder. *)
Ltac digits_arith :=
  repeat match goal with
         | |- context [(?q mod 10)%N] =>
             let r := fresh "r" in
             let q' := fresh "q" in
             pose proof (N.div_mod q 10 ltac:(discriminate));
             pose proof (N.mod_lt q 10 ltac:(discriminate));
             set (r := (q mod 10)%N) in *; set (q' := (q / 10)%N) in *;
             clearbody r q'
         end;
  lia.

Lemma parse_civil_isoformat (d : Reference.civil) :
  Reference.valid d = true ->
  Reference.parse_civil (Reference.isoformat_chars d) = Some d.
Proof.
  destruct d as [y m dd h mi s us]. unfold Reference.valid.
  cbn [Reference.year Reference.month Reference.day Reference.hour
       Reference.minute Reference.second Reference.microsecond].
  rewrite !andb_true_iff, !N.leb_le, !N.ltb_lt.
  intros [[[[[[[[[Hy1 Hy2] Hm1] Hm2] Hd1] Hd2] Hh] Hmi] Hs] Hus].
  assert (dd < 100)%N as Hd.
  { unfold Reference.days_in_month in Hd2.
    repeat match goal with
           | H : context [if ?b then _ else _] |- _ => destruct b
           end; lia. }
  unfold Reference.isoformat_chars.
  cbn [Reference.year Reference.month Reference.day Reference.hour
       Reference.minute Reference.second Reference.microsecond].
  destruct (N.eqb_spec us 0) as [-> | Hnz];
    cbn [Reference.digits app]; name_digits;
    unfold Reference.parse_civil, Reference.expect, Reference.field;
    cbn; use_digits; cbn; do 2 f_equal; digits_arith.
Qed.

Lemma reference_parse_isoformat (d : Reference.naive_datetime) :
  Reference.parse_isoformat (Reference.isoformat d) = Some d.
Proof.
  destruct d as [c ok]. unfold Reference.parse_isoformat, Reference.isoformat.
  cbn [proj1_sig]. rewrite list_ascii_of_string_of_list_ascii.
  rewrite (parse_civil_isoformat c ok). cbn. unfold Reference.checked.
  destruct (decide (Reference.valid c = true)) as [ok' | bad]; [| contradiction].
  do 2 f_equal. apply proof_irrel.
Qed.

Lemma reference_py_str_PStr (s : string) : Reference.py_str (PStr s) = s.
Proof. reflexivity. Qed.

Definition reference_lib : PyLib := {|
  datetime := Reference.naive_datetime;
  isoformat := Reference.isoformat;
  parse_isoformat := Reference.parse_isoformat;
  strftime := Reference.strftime;
  py_str := Reference.py_str;
  parse_isoformat_isoformat := reference_parse_isoformat;
  py_str_PStr := reference_py_str_PStr
|}.

(** ** Concrete inputs *)

Module Samples.

#[local] Existing Instance reference_lib.

Definition noon : Reference.naive_datetime :=
  exist _ {| Reference.year := 2024; Reference.month := 3; Reference.day := 9;
             Reference.hour := 12; Reference.minute := 0; Reference.second := 0;
             Reference.microsecond := 0 |} eq_refl.

(** A clock that advances by one second at each reading. *)
Definition seconds_after_noon (n : nat) : Reference.naive_datetime :=
  default noon
    (Reference.checked
       {| Reference.year := 2024; Reference.month := 3; Reference.day := 9;
          Reference.hour := 12; Reference.minute := (N.of_nat n / 60) mod 60;
          Reference.second := N.of_nat n mod 60; Reference.microsecond := 0 |}).

(** A session file, and a well-formed JSON file that does not hold a
    session. *)
Definition saved_session : pyval :=
  PDict [ (PStr "session_id", PStr "20240301_080000");
          (PStr "start_time", PStr "2024-03-01T08:00:00");
          (PStr "user_languages", PDict [(PStr "ana", PStr "es")]);
          (PStr "messages",
           PList [PDict [ (PStr "text", PStr "hola");
                          (PStr "language", PStr "es");
                          (PStr "timestamp", PStr "2024-03-01T08:00:05") ]]) ].

Definition foreign_record : pyval :=
  PDict [ (PStr "session_id", PStr "imported"); (PStr "messages", PInt 7) ].

(** A record whose timestamp is not a string, and a session file that
    holds it. *)
Definition record_with_null_timestamp : pyval :=
  PDict [ (PStr "text", PStr "gg"); (PStr "language", PStr "en");
          (PStr "timestamp", PNone) ].

Definition session_with_null_timestamp : pyval :=
  PDict [ (PStr "session_id", PStr "20240301_080000");
          (PStr "messages", PList [record_with_null_timestamp]) ].

Definition disk : gmap string file :=
  {[ "saved.json" := JsonFile saved_session;
     "foreign.json" := JsonFile foreign_record;
     "null_timestamp.json" := JsonFile session_with_null_timestamp;
     "notes.txt" := TextFile [Text "remember the keys"] ]}.

Definition world0 : world :=
  {| files := disk; writable := fun _ => true; can_mkdir := fun _ => true;
     reportlab := None; clock := seconds_after_noon; ticks := 0 |}.

Definition config0 : Config :=
  {| save_dir := Ok "sessions"; export_dir := Ok "exports";
     cfg_auto_save := Ok false; cfg_auto_save_interval := Ok 300 |}.

Definition message_at (t : Reference.naive_datetime)
    (text language : string) (is_outgoing : bool) (translation : pyval)
  : VoiceMessage :=
  {| text := PStr text; language := PStr language;
     is_outgoing := PBool is_outgoing; translation := translation;
     timestamp := t |}.

(** The three messages of the scenario of the specification. *)
Definition scenario : list VoiceMessage :=
  [ message_at (seconds_after_noon 2) "gg" "en" true (PStr "bien jugado");
    message_at (seconds_after_noon 3) "nice shot" "en" true PNone;
    message_at (seconds_after_noon 4) "buena jugada" "es" false PNone ].

(** A manager just constructed, and one that holds the scenario and a
    participant. *)
Definition fresh_session : SessionManager :=
  {| config := config0; messages := [];
     session_id := PStr "20240309_120000"; start_time := seconds_after_noon 1;
     user_languages := PDict []; stats := empty_stats;
     auto_save := false; auto_save_interval := 300 |}.

Definition busy_session : SessionManager :=
  {| config := config0; messages := scenario;
     session_id := PStr "20240309_120000"; start_time := seconds_after_noon 1;
     user_languages := PDict [(PStr "bo", PStr "en")];
     stats := PDict [ (PStr "total_messages", PInt 3);
                      (PStr "outgoing_messages", PInt 2);
                      (PStr "incoming_messages", PInt 1);
                      (PStr "languages",
                       PDict [(PStr "en", PInt 2); (PStr "es", PInt 1)]);
                      (PStr "word_count", PInt 5) ];
     auto_save := false; auto_save_interval := 300 |}.

End Samples.

(** ** Running the model in proofs *)

Ltac py_unfold :=
  unfold try_except_ValueError, try_except, bind, lift, ret, raise, get,
    modify, zoom in *.
Ltac py_run := repeat (py_unfold; cbn in *).

(** ** The message model *)

Section MessageFacts.
Context `{PyLib}.

Lemma fromisoformat_isoformat (d : datetime) :
  fromisoformat (PStr (isoformat d)) = Ok d.
Proof. unfold fromisoformat. now rewrite parse_isoformat_isoformat. Qed.

(** C7.  Rebuilding a message from its own dictionary gives back its
    text, language, direction and translation, and its timestamp exactly
    (hence to the second): [from_dict (to_dict m)] returns [m]. *)
Theorem from_dict_to_dict (m : VoiceMessage) (w : world) :
  exists m',
    fst (from_dict (to_dict m) w) = Ok m'
    /\ text m' = text m
    /\ language m' = language m
    /\ is_outgoing m' = is_outgoing m
    /\ translation m' = translation m
    /\ timestamp m' = timestamp m.
Proof.
  exists m. destruct m as [tx lg og tr ts].
  unfold from_dict, to_dict, Message.__init__, now.
  py_run. rewrite parse_isoformat_isoformat. py_run. auto 10.
Qed.

(** A record whose timestamp is absent or a string is always rebuilt:
    absent fields take their defaults, and a string that does not parse
    leaves the time of construction in place. *)
Lemma from_dict_str_timestamp (d : list (pyval * pyval)) (w : world) :
  timestamp_is_str_or_absent d = true ->
  exists m,
    fst (from_dict (PDict d) w) = Ok m
    /\ text m = default (PStr "") (dict_lookup (PStr "text") d)
    /\ language m = default (PStr "en") (dict_lookup (PStr "language") d)
    /\ is_outgoing m = default (PBool false) (dict_lookup (PStr "is_outgoing") d)
    /\ translation m = default PNone (dict_lookup (PStr "translation") d)
    /\ timestamp m = loaded_timestamp d (clock w (ticks w)).
Proof.
  unfold timestamp_is_str_or_absent, loaded_timestamp, from_dict,
    Message.__init__, now, dict_get, contains, getitem.
  intros Hts. py_run.
  destruct (dict_lookup (PStr "text") d),
    (dict_lookup (PStr "language") d),
    (dict_lookup (PStr "is_outgoing") d),
    (dict_lookup (PStr "translation") d);
    py_run;
    (destruct (dict_lookup (PStr "timestamp") d) as [[| | | s | |] |];
     try discriminate; py_run;
     [ destruct (parse_isoformat s); py_run | ];
     eexists; repeat split; reflexivity).
Qed.

(** C8 (where the code departs from it).  A record whose timestamp is
    there and is not a string, such as JSON [null] or a number, is not
    rebuilt: [datetime.fromisoformat] raises [TypeError], which the
    handler for [ValueError] lets through, so [from_dict] raises. *)
Theorem from_dict_timestamp_not_str_raises
    (d : list (pyval * pyval)) (v : pyval) (w : world) :
  dict_lookup (PStr "timestamp") d = Some v ->
  ~ is_str v ->
  fst (from_dict (PDict d) w) = Raise TypeError.
Proof.
  intros Hts Hv.
  unfold from_dict, Message.__init__, now, dict_get, contains, getitem.
  py_run.
  destruct (dict_lookup (PStr "text") d),
    (dict_lookup (PStr "language") d),
    (dict_lookup (PStr "is_outgoing") d),
    (dict_lookup (PStr "translation") d);
    py_run; rewrite Hts; py_run;
    (destruct v; py_run; try reflexivity; exfalso; apply Hv; exact I).
Qed.

End MessageFacts.

(** ** The session manager *)

Section SessionFacts.
Context `{PyLib}.

(** C10.  [clear] empties the log, puts every counter back to zero with
    an empty language map, takes a new session id and start time from the
    clock, and leaves the participants' languages as they were; nothing is
    written. *)
Theorem clear_keeps_user_languages (self : SessionManager) (w : world) :
  exists self' w',
    clear (self, w) = (Ok tt, (self', w'))
    /\ messages self' = []
    /\ stats self' = PDict [ (PStr "total_messages", PInt 0);
                             (PStr "outgoing_messages", PInt 0);
                             (PStr "incoming_messages", PInt 0);
                             (PStr "languages", PDict []);
                             (PStr "word_count", PInt 0) ]
    /\ session_id self' = PStr (strftime (clock w (ticks w)) "%Y%m%d_%H%M%S")
    /\ start_time self' = clock w (S (ticks w))
    /\ user_languages self' = user_languages self
    /\ files w' = files w.
Proof.
  unfold clear, update, io, now. py_run.
  do 2 eexists. repeat split; reflexivity.
Qed.

(** C9.  With an empty log, [save_session] and [export_session] return
    [False] without raising, for every path and every format, and leave
    the manager, the files and the clock untouched. *)
Theorem empty_log_is_not_written
    (self : SessionManager) (w : world) (path : option string) :
  messages self = [] ->
  save_session path (self, w) = (Ok false, (self, w))
  /\ forall format_type : string,
       export_session format_type path (self, w) = (Ok false, (self, w)).
Proof.
  intros Hempty. unfold save_session, export_session, self_. py_run.
  rewrite Hempty. split; reflexivity.
Qed.

(** C1, as the code has it.  When the file cannot be opened or does not
    hold JSON, [load_session] returns [False] and the manager, the files
    and the clock are exactly what they were. *)
Theorem load_session_unreadable_file
    (self : SessionManager) (w : world) (path : string) (e : exn) :
  fst (read_json path w) = Raise e ->
  load_session path (self, w) = (Ok false, (self, w)).
Proof.
  unfold load_session, io, read_json. py_run.
  destruct (files w !! path) as [[v | | |] |]; py_run;
    intros Hread; try discriminate; reflexivity.
Qed.

(** [load_session] never raises. *)
Lemma load_session_returns (self : SessionManager) (w : world) (path : string) :
  exists b, fst (load_session path (self, w)) = Ok b.
Proof.
  unfold load_session. py_unfold.
  match goal with
  | |- context [match ?c with _ => _ end] => destruct c as [[r | e] s]
  end; cbn; eauto.
Qed.

End SessionFacts.

(** ** The running statistics *)

Section StatsFacts.
Context `{PyLib}.

Lemma key_eqb_str (a : string) (x : pyval) :
  key_eqb (PStr a) x = true -> x = PStr a.
Proof.
  destruct x; cbn; try discriminate. intros E. apply String.eqb_eq in E. now subst.
Qed.

Lemma dict_lookup_set (a b : string) (v : pyval) (d : list (pyval * pyval)) :
  dict_lookup (PStr a) (dict_set (PStr b) v d)
  = if String.eqb a b then Some v else dict_lookup (PStr a) d.
Proof.
  induction d as [| [k x] d IH].
  - cbn. reflexivity.
  - cbn [dict_set dict_lookup].
    destruct (key_eqb (PStr b) k) eqn:Ebk.
    + apply key_eqb_str in Ebk. subst k. cbn.
      destruct (String.eqb a b); reflexivity.
    + cbn [dict_lookup]. rewrite IH.
      destruct (key_eqb (PStr a) k) eqn:Eak; [| reflexivity].
      apply key_eqb_str in Eak. subst k.
      destruct (String.eqb_spec a b) as [-> | Hne]; [| reflexivity].
      cbn in Ebk. rewrite String.eqb_refl in Ebk. discriminate.
Qed.

Lemma dict_lookup_None (a : string) (d : list (pyval * pyval)) :
  dict_lookup (PStr a) d = None -> PStr a ∉ map fst d.
Proof.
  induction d as [| [k x] d IH]; cbn [dict_lookup map fst].
  - intros _ Hin. inversion Hin.
  - destruct (key_eqb (PStr a) k) eqn:Eak; [discriminate |].
    intros Hnone Hin. apply elem_of_cons in Hin as [<- | Hin].
    + cbn in Eak. rewrite String.eqb_refl in Eak. discriminate.
    + exact (IH Hnone Hin).
Qed.

Lemma dict_set_keys (a : string) (v : pyval) (d : list (pyval * pyval)) :
  map fst (dict_set (PStr a) v d)
  = match dict_lookup (PStr a) d with
    | Some _ => map fst d
    | None => map fst d ++ [PStr a]
    end.
Proof.
  induction d as [| [k x] d IH]; cbn [dict_set dict_lookup map fst app].
  - reflexivity.
  - destruct (key_eqb (PStr a) k) eqn:Eak; cbn [map fst]; [reflexivity |].
    rewrite IH. destruct (dict_lookup (PStr a) d); reflexivity.
Qed.

Lemma tally_keys (lang : string) (langs : list (pyval * pyval)) :
  Forall is_str (map fst langs) -> NoDup (map fst langs) ->
  Forall is_str (map fst (tally lang langs)) /\ NoDup (map fst (tally lang langs)).
Proof.
  intros Hstr Hnd. unfold tally.
  destruct (dict_lookup (PStr lang) langs) as [v |] eqn:Elook.
  - assert (forall w, map fst (dict_set (PStr lang) w langs) = map fst langs) as Hkeep.
    { intros w. rewrite dict_set_keys, Elook. reflexivity. }
    destruct v; rewrite ?Hkeep; try (split; assumption);
      rewrite dict_set_keys, dict_lookup_set, String.eqb_refl, Hkeep;
      split; assumption.
  - rewrite dict_set_keys, dict_lookup_set, String.eqb_refl, dict_set_keys, Elook.
    split.
    + apply Forall_app. split; [exact Hstr |]. repeat constructor.
    + apply NoDup_app. split; [exact Hnd |]. split.
      * intros x Hx Hin. apply list_elem_of_singleton in Hin. subst x.
        exact (dict_lookup_None lang langs Elook Hx).
      * apply NoDup_singleton.
Qed.

Lemma add_message_stats_dict (self : SessionManager) (m : VoiceMessage)
    (a b c d : Z) (langs : list (pyval * pyval)) (txt lang : string) :
  stats self = stats_dict a b c langs d ->
  text m = PStr txt -> language m = PStr lang ->
  (forall v, dict_lookup (PStr lang) langs = Some v -> exists n, v = PInt n) ->
  add_message m self
  = (Ok m,
     set_stats
       (stats_dict (a + 1)
          (if truthy (is_outgoing m) then b + 1 else b)
          (if truthy (is_outgoing m) then c else c + 1)
          (tally lang langs)
          (d + Z.of_nat (length (split txt))))
       (set_messages (messages self ++ [m]) self)).
Proof.
  intros Hstats Htxt Hlang Hint.
  destruct m as [tx lg og tr ts]. cbn in Htxt, Hlang. subst tx lg.
  destruct self as [cfg msgs sid st ul sts au ai]. cbn in Hstats. subst sts.
  unfold add_message, stats_add, languages_set, set_messages, set_stats,
    stats_dict, tally.
  py_run.
  destruct (truthy og); py_run;
    (destruct (dict_lookup (PStr lang) langs) as [v |] eqn:Elook; py_run;
     [ destruct (Hint v eq_refl) as [n ->]; py_run; rewrite Elook; py_run;
       reflexivity
     | rewrite !dict_lookup_set, String.eqb_refl; py_run; reflexivity ]).
Qed.

Lemma count_if_snoc {A} (p : A -> bool) (l : list A) (x : A) :
  count_if p (l ++ [x]) = count_if p l + (if p x then 1 else 0).
Proof.
  unfold count_if. rewrite List.filter_app, length_app. cbn.
  destruct (p x); cbn; lia.
Qed.

Lemma count_if_nonneg {A} (p : A -> bool) (l : list A) : 0 <= count_if p l.
Proof. unfold count_if. lia. Qed.

Lemma recomputed_words_snoc (l : list VoiceMessage) (m : VoiceMessage) :
  recomputed_words (l ++ [m]) = recomputed_words l + words_of m.
Proof.
  unfold recomputed_words. induction l as [| x l IH]; cbn in *; [lia |].
  rewrite IH. lia.
Qed.

Lemma pristine_agree (self : SessionManager) :
  pristine self -> messages self = [] /\ stats_agree self.
Proof.
  intros [cfg w w' s Hinit | s0 s w w' Hclear].
  - unfold Session.__init__, now in Hinit. py_run.
    destruct (cfg_auto_save cfg); [| discriminate].
    destruct (cfg_auto_save_interval cfg); [| discriminate].
    inversion Hinit; subst.
    split; [reflexivity |]. exists [].
    repeat split; try reflexivity; constructor.
  - unfold clear, update, io, now in Hclear. py_run. inversion Hclear; subst.
    split; [reflexivity |]. exists [].
    repeat split; try reflexivity; constructor.
Qed.

Lemma add_message_agree (self : SessionManager) (m : VoiceMessage) :
  stats_agree self -> well_typed m = true ->
  exists self',
    add_message m self = (Ok m, self')
    /\ messages self' = messages self ++ [m]
    /\ stats_agree self'.
Proof.
  intros [langs [Hstats [Hstr [Hnd Hlangs]]]] Hm. unfold well_typed in Hm.
  destruct (text m) as [| | | txt | |] eqn:Htxt; try discriminate.
  destruct (language m) as [| | | lang | |] eqn:Hlang; try discriminate.
  assert (forall v, dict_lookup (PStr lang) langs = Some v -> exists n, v = PInt n)
    as Hint.
  { intros v Hv. rewrite Hlangs in Hv.
    destruct (_ =? 0); [discriminate | inversion Hv; eauto]. }
  rewrite (add_message_stats_dict self m _ _ _ _ langs txt lang Hstats Htxt Hlang Hint).
  destruct self as [cfg msgs sid st ul sts au ai].
  cbn [stats set_stats set_messages messages] in *.
  eexists. split; [reflexivity |].
  unfold set_stats, set_messages. cbn [messages stats]. split; [reflexivity |].
  exists (tally lang langs).
  cbn [messages stats config session_id start_time user_languages auto_save
       auto_save_interval].
  destruct (tally_keys lang langs Hstr Hnd) as [Hstr' Hnd'].
  split; [| split; [exact Hstr' | split; [exact Hnd' |]]].
  - unfold recomputed_total, recomputed_outgoing, recomputed_incoming.
    rewrite !count_if_snoc, recomputed_words_snoc, length_app.
    unfold words_of. rewrite Htxt. cbn [length].
    destruct (truthy (is_outgoing m)); cbn [negb];
      repeat f_equal; lia.
  - intros l. unfold recomputed_language in *. rewrite count_if_snoc.
    rewrite Hlang. cbn [py_eqb key_eqb].
    pose proof (count_if_nonneg (fun m0 => py_eqb (language m0) (PStr l)) msgs) as Hl.
    pose proof (Hlangs l) as Hq. pose proof (Hlangs lang) as Hk.
    unfold tally. rewrite Hk.
    destruct (Z.eqb_spec (count_if (fun m0 => py_eqb (language m0) (PStr lang)) msgs) 0)
      as [Hz | Hnz].
    + rewrite !dict_lookup_set, (String.eqb_sym l lang).
      destruct (String.eqb_spec lang l) as [-> | Hne].
      * rewrite Hz. reflexivity.
      * rewrite Z.add_0_r. exact Hq.
    + rewrite dict_lookup_set, (String.eqb_sym l lang).
      destruct (String.eqb_spec lang l) as [-> | Hne].
      * destruct (Z.eqb_spec (count_if (fun m0 => py_eqb (language m0) (PStr l)) msgs + 1) 0);
          [lia | reflexivity].
      * rewrite Z.add_0_r. exact Hq.
Qed.

Lemma add_messages_agree (msgs : list VoiceMessage) :
  forall self,
    stats_agree self -> Forall (fun m => well_typed m = true) msgs ->
    exists self',
      add_messages msgs self = (Ok tt, self')
      /\ messages self' = messages self ++ msgs
      /\ stats_agree self'.
Proof.
  induction msgs as [| m msgs IH]; intros self Hagree Htyped.
  - exists self. rewrite app_nil_r. repeat split; assumption.
  - inversion Htyped as [| ? ? Hm Hrest]; subst.
    destruct (add_message_agree self m Hagree Hm) as [s1 [Hadd [Hmsgs Hs1]]].
    destruct (IH s1 Hs1 Hrest) as [s2 [Hrun [Hmsgs2 Hs2]]].
    exists s2. split; [| split; [| exact Hs2]].
    + unfold add_messages in *. cbn [for_each]. py_unfold. rewrite Hadd.
      exact Hrun.
    + rewrite Hmsgs2, Hmsgs, <- app_assoc. reflexivity.
Qed.

(** C2.  From a fresh or cleared session, after any number [n] of the
    [add_message] calls of a sequence of messages of the data model, the
    calls have all returned, the log holds the messages added, and the
    maintained statistics are those a recomputation over the log gives:
    total, outgoing and incoming counts, the count of each language, and
    the number of whitespace-separated words. *)
Theorem stats_match_recomputation
    (self0 : SessionManager) (msgs : list VoiceMessage) (n : nat) :
  pristine self0 ->
  Forall (fun m => well_typed m = true) msgs ->
  exists self,
    add_messages (take n msgs) self0 = (Ok tt, self)
    /\ messages self = take n msgs
    /\ stats_agree self.
Proof.
  intros Hp Htyped. destruct (pristine_agree self0 Hp) as [Hempty Hagree].
  destruct (add_messages_agree (take n msgs) self0 Hagree) as [self [Hrun [Hm Hs]]].
  { apply Forall_take. exact Htyped. }
  exists self. rewrite Hempty in Hm. auto.
Qed.
End StatsFacts.

(** ** The translators *)

Section TranslatorFacts.

(** C5.  A Google translator that was constructed returns a non-empty
    text unchanged when the source and the target are the same language
    other than ["auto"], and makes no call on its backend: its record of
    calls is what it was. *)
Theorem same_language_returns_text
    (self : GoogleTranslator) (g : googletrans) (text L : string) :
  translator self = Some g ->
  text <> "" ->
  L <> "auto" ->
  GoogleTranslator_translate_text text L L self = (Ok (Some text), self)
  /\ calls (snd (GoogleTranslator_translate_text text L L self)) = calls self.
Proof.
  intros Hg Htext HL. unfold GoogleTranslator_translate_text. py_run.
  rewrite Hg.
  destruct (String.eqb_spec text "") as [? | _]; [contradiction |].
  rewrite String.eqb_refl. destruct (String.eqb_spec L "auto") as [? | _]; [contradiction |].
  cbn. split; reflexivity.
Qed.

(** A constructed translator has its translator and has made no call. *)
Lemma constructed_has_translator (lib : outcome googletrans) (self : GoogleTranslator) :
  GoogleTranslator__init__ lib = Ok self ->
  exists g, translator self = Some g /\ calls self = [].
Proof.
  destruct lib as [g | e]; cbn; intros Hinit; inversion Hinit; subst; eauto.
Qed.

Context {T : Type} `{BaseTranslator T}.

(** What one [translate_text] of a cached translator does, by cases. *)
Lemma cached_translate_text_cases
    (self : CachedTranslator T) (text target source : string) :
  text <> "" ->
  let key := (text, source, target) in
  let asked := set_base (snd (translate_text text target source (base_translator self)))
                 (log_delegation (text, target, source) self) in
  CachedTranslator_translate_text text target source self
  = match cache self !! key with
    | Some cached => (Ok (Some cached), self)
    | None =>
        match fst (translate_text text target source (base_translator self)) with
        | Ok (Some r) =>
            (Ok (Some r),
             if negb (String.eqb r "")
                && (Z.of_nat (size (cache self)) <? cache_size self)
             then set_cache (<[key := r]> (cache self)) asked
             else asked)
        | Ok None => (Ok None, asked)
        | Raise e => (Raise e, asked)
        end
    end.
Proof.
  intros Htext key asked. subst key asked.
  unfold CachedTranslator_translate_text.
  destruct (String.eqb_spec text "") as [? | _]; [contradiction |].
  py_run.
  destruct (cache self !! (text, source, target)) as [cached |]; [reflexivity |].
  destruct (translate_text text target source (base_translator self)) as [[[r |] | e] b];
    py_run; try reflexivity.
  destruct (negb (String.eqb r "") && (Z.of_nat (size (cache self)) <? cache_size self));
    reflexivity.
Qed.


(** C6, as the code has it.  For a non-empty text whose key is in the
    cache, [translate_text] returns the cached value and leaves the
    translator as it was: the wrapped translator is not called.  When the
    key is absent the wrapped translator is called once and its result is
    returned; the result enters the cache only when it is a non-empty
    string and the cache holds fewer than [cache_size] entries, and
    otherwise the cache is unchanged. *)
Theorem cached_translate_text_hit_or_miss
    (self : CachedTranslator T) (text target source : string) :
  text <> "" ->
  let key := (text, source, target) in
  let base_run := translate_text text target source (base_translator self) in
  let run := CachedTranslator_translate_text text target source self in
  match cache self !! key with
  | Some cached => run = (Ok (Some cached), self)
  | None =>
      fst run = fst base_run
      /\ base_translator (snd run) = snd base_run
      /\ delegated (snd run) = delegated self ++ [(text, target, source)]
      /\ cache (snd run)
         = match fst base_run with
           | Ok (Some r) =>
               if negb (String.eqb r "")
                  && (Z.of_nat (size (cache self)) <? cache_size self)
               then <[key := r]> (cache self)
               else cache self
           | _ => cache self
           end
  end.
Proof.
  intros Htext key base_run run. subst key base_run run.
  rewrite (cached_translate_text_cases self text target source Htext).
  destruct (cache self !! (text, source, target)) as [cached |]; [reflexivity |].
  destruct (translate_text text target source (base_translator self))
    as [[[r |] | e] b]; cbn [fst snd]; try (repeat split; reflexivity).
  destruct (negb (String.eqb r "") && (Z.of_nat (size (cache self)) <? cache_size self));
    repeat split; reflexivity.
Qed.

Lemma perform_invariant (o : operation) (self : CachedTranslator T) :
  bounded self -> keys_nonempty self ->
  bounded (perform o self)
  /\ keys_nonempty (perform o self)
  /\ cache_size (perform o self) = cache_size self.
Proof.
  intros Hb Hk. destruct o as [text target source | text]; cbn [perform].
  - destruct (String.eqb_spec text "") as [-> | Htext].
    { unfold CachedTranslator_translate_text. cbn. auto. }
    rewrite (cached_translate_text_cases self text target source Htext).
    destruct (cache self !! (text, source, target)) as [cached |] eqn:Hlook;
      [cbn; auto |].
    destruct (translate_text text target source (base_translator self))
      as [[[r |] | e] b]; cbn [fst snd]; try (cbn; auto).
    destruct (negb (String.eqb r "")) eqn:Hr; cbn [andb]; [| cbn; auto].
    destruct (Z.ltb_spec (Z.of_nat (size (cache self))) (cache_size self)) as [Hlt | Hge];
      [| cbn; auto].
    unfold bounded, keys_nonempty. cbn. repeat split.
    + rewrite map_size_insert_None by exact Hlook. unfold bounded in Hb. lia.
    + intros t s g Hsome.
      destruct (decide ((text, source, target) = (t, s, g))) as [Heq | Hne].
      * inversion Heq; subst. exact Htext.
      * rewrite lookup_insert_ne in Hsome by exact Hne. eapply Hk; eauto.
  - unfold CachedTranslator_detect_language. py_run.
    destruct (detect_language text (base_translator self)) as [r b]. cbn. auto.
Qed.

Lemma perform_all_invariant (os : list operation) :
  forall self : CachedTranslator T,
    bounded self -> keys_nonempty self ->
    bounded (perform_all os self)
    /\ keys_nonempty (perform_all os self)
    /\ cache_size (perform_all os self) = cache_size self.
Proof.
  unfold perform_all.
  induction os as [| o os IH]; intros self Hb Hk; cbn [fold_left]; [auto |].
  destruct (perform_invariant o self Hb Hk) as [Hb' [Hk' Hc']].
  destruct (IH (perform o self) Hb' Hk') as [Hb2 [Hk2 Hc2]].
  repeat split; try assumption. congruence.
Qed.

(** C3, as the code has it.  The capacity is taken from the
    configuration unchecked and may be zero or negative.  Whatever it is
    and whatever operations were performed on a cached translator since
    its construction, the cache never holds more entries than the
    capacity, or than none when the capacity is negative; and once it
    holds that many, a translation for a key it does not hold leaves the
    cache exactly as it was (nothing stored, nothing evicted), so that a
    lookup of the key still finds nothing. *)
Theorem cache_fills_then_freezes
    (capacity : Z) (base : T) (os : list operation) :
  let self := perform_all os (CachedTranslator__init__ capacity base) in
  Z.of_nat (size (cache self)) <= Z.max 0 capacity
  /\ forall text target source,
       Z.of_nat (size (cache self)) = Z.max 0 capacity ->
       cache self !! (text, source, target) = None ->
       let self' := snd (CachedTranslator_translate_text text target source self) in
       cache self' = cache self
       /\ cache self' !! (text, source, target) = None.
Proof.
  intros self.
  destruct (perform_all_invariant os (CachedTranslator__init__ capacity base))
    as [Hb [Hk Hc]].
  { unfold bounded. cbn. rewrite map_size_empty. lia. }
  { intros t s g [v Hv]. cbn in Hv. rewrite lookup_empty in Hv. discriminate. }
  fold self in Hb, Hk, Hc. cbn in Hc. unfold bounded in Hb. rewrite Hc in Hb.
  split; [exact Hb |].
  intros text target source Hfull Hmiss self'. subst self'.
  assert (cache (snd (CachedTranslator_translate_text text target source self))
          = cache self) as Hsame.
  { destruct (String.eqb_spec text "") as [-> | Htext].
    { unfold CachedTranslator_translate_text. reflexivity. }
    rewrite (cached_translate_text_cases self text target source Htext), Hmiss.
    destruct (translate_text text target source (base_translator self))
      as [[[r |] | e] b]; cbn [fst snd]; try reflexivity.
    rewrite Hc.
    destruct (Z.ltb_spec (Z.of_nat (size (cache self))) capacity) as [Hlt | Hge];
      [lia |].
    rewrite andb_false_r. reflexivity. }
  rewrite Hsame. split; [reflexivity | exact Hmiss].
Qed.

End TranslatorFacts.

(** ** The cache of the specification *)

Section CacheFacts.
Import TranslationCache.

Lemma run_counts (cs : list call) :
  forall self : TranslationCache,
    let '(rs, final) := run cs self in
    hits final = (hits self + hit_count rs)%nat
    /\ misses final = (misses self + miss_count rs)%nat.
Proof.
  induction cs as [| c cs IH]; intros self.
  - cbn. unfold hit_count, miss_count. cbn. lia.
  - destruct c as [t s g | t s g v |]; cbn [run].
    + unfold get.
      destruct (cache self !! (t, s, g)) as [v |];
        match goal with
        | |- context [run cs ?s1] => specialize (IH s1); destruct (run cs s1) as [rs final]
        end;
        unfold hit_count, miss_count in *; cbn in *; lia.
    + unfold set. destruct (Z.of_nat (size (cache self)) <? max_size self);
        cbn [snd];
        match goal with
        | |- context [run cs ?s1] => specialize (IH s1); destruct (run cs s1) as [rs final]
        end; cbn in *; exact IH.
    + unfold clear. cbn [snd].
      match goal with
      | |- context [run cs ?s1] => specialize (IH s1); destruct (run cs s1) as [rs final]
      end; cbn in *; exact IH.
Qed.

(** C4.  A lookup of an absent key returns [None] and adds one to the
    miss counter only; a lookup of a present key returns its value and
    adds one to the hit counter only; and after any calls on a new cache,
    of which [h] lookups found their key and [m] did not, [get_stats]
    reports [h] hits, [m] misses and the rate [h/(h+m)*100], which is 0
    when there was no lookup. *)
Theorem hit_rate_of_lookups :
  (forall (self : TranslationCache) (text source target : string),
      let '(r, self') := get text source target self in
      cache self' = cache self
      /\ match cache self !! (text, source, target) with
         | Some value =>
             r = Ok (Some value)
             /\ hits self' = S (hits self) /\ misses self' = misses self
         | None =>
             r = Ok None
             /\ hits self' = hits self /\ misses self' = S (misses self)
         end)
  /\ (forall (capacity : Z) (cs : list call),
         let '(rs, final) := run cs (__init__ capacity) in
         stat_hits (get_stats final) = hit_count rs
         /\ stat_misses (get_stats final) = miss_count rs
         /\ stat_hit_rate (get_stats final) = rate (hit_count rs) (miss_count rs)
         /\ (hit_count rs + miss_count rs = 0 ->
             stat_hit_rate (get_stats final) = 0%Q)%nat
         /\ (hit_count rs + miss_count rs <> 0 ->
             (stat_hit_rate (get_stats final)
              == Q_of_nat (hit_count rs)
                 / (Q_of_nat (hit_count rs) + Q_of_nat (miss_count rs)) * 100)%Q)%nat).
Proof.
  split.
  - intros self text source target. unfold get.
    destruct (cache self !! (text, source, target)); cbn; auto.
  - intros capacity cs.
    pose proof (run_counts cs (__init__ capacity)) as Hrun.
    destruct (run cs (__init__ capacity)) as [rs final].
    cbn [__init__ hits misses] in Hrun. destruct Hrun as [Hh Hm].
    cbn in Hh, Hm. unfold get_stats, rate. cbn [stat_hits stat_misses stat_hit_rate].
    rewrite Hh, Hm. repeat split.
    + intros Hzero. apply Nat.eqb_eq in Hzero. rewrite Hzero. reflexivity.
    + intros Hnz. apply Nat.eqb_neq in Hnz. rewrite Hnz.
      unfold Q_of_nat. rewrite Nat2Z.inj_add, inject_Z_plus. reflexivity.
Qed.

End CacheFacts.

(** ** The theorems at concrete inputs *)

Section Instances.
Import Samples Phrasebook.
#[local] Existing Instance reference_lib.

(** C1: a file that is not there. *)
Lemma load_session_unreadable_file_witness :
  fst (read_json "missing.json" world0) = Raise OSError
  /\ load_session "missing.json" (busy_session, world0)
     = (Ok false, (busy_session, world0)).
Proof.
  split; [reflexivity |].
  apply (load_session_unreadable_file busy_session world0 "missing.json" OSError).
  reflexivity.
Defined.

(** C1: a file that holds the JSON object
    [{"session_id": "imported", "messages": 7}].  The file is read, the
    log is emptied, the session id and the participants' languages are
    replaced, and then the loop over [7] raises: [load_session] returns
    [False] with the session overwritten. *)
Lemma load_session_foreign_record_overwrites :
  let run := load_session "foreign.json" (busy_session, world0) in
  files world0 !! "foreign.json" = Some (JsonFile foreign_record)
  /\ fst run = Ok false
  /\ messages busy_session = scenario
  /\ messages (fst (snd run)) = []
  /\ session_id busy_session = PStr "20240309_120000"
  /\ session_id (fst (snd run)) = PStr "imported"
  /\ user_languages busy_session = PDict [(PStr "bo", PStr "en")]
  /\ user_languages (fst (snd run)) = PDict [].
Proof. cbv zeta. repeat (split; [reflexivity |]). reflexivity. Qed.

(** C2: the scenario of the specification, added to a new session. *)
Lemma stats_match_recomputation_witness :
  pristine fresh_session
  /\ Forall (fun m => well_typed m = true) scenario
  /\ exists self,
       add_messages (take 3 scenario) fresh_session = (Ok tt, self)
       /\ messages self = take 3 scenario
       /\ stats_agree self.
Proof.
  assert (pristine fresh_session) as Hp.
  { apply (pristine_init config0 world0 (snd (Session.__init__ config0 world0))).
    reflexivity. }
  assert (Forall (fun m => well_typed m = true) scenario) as Ht.
  { repeat constructor. }
  exact (conj Hp (conj Ht (stats_match_recomputation fresh_session scenario 3 Hp Ht))).
Defined.

(** C3: a cache of capacity one, filled by one translation. *)
Lemma cache_fills_then_freezes_witness :
  let self := perform_all [TranslateText "hello" "es" "en"]
                (CachedTranslator__init__ 1 spanish) in
  Z.of_nat (size (cache self)) = Z.max 0 1
  /\ Z.of_nat (size (cache self)) <= Z.max 0 1
  /\ forall text target source,
       Z.of_nat (size (cache self)) = Z.max 0 1 ->
       cache self !! (text, source, target) = None ->
       let self' := snd (CachedTranslator_translate_text text target source self) in
       cache self' = cache self
       /\ cache self' !! (text, source, target) = None.
Proof.
  split; [vm_compute; reflexivity |].
  apply (cache_fills_then_freezes 1 spanish [TranslateText "hello" "es" "en"]).
Defined.

(** C3: a cached translator constructed with the configured capacity
    [-1].  Its cache is empty, and holds more entries than the
    capacity. *)
Lemma negative_capacity_is_exceeded :
  let self := CachedTranslator__init__ (-1) spanish in
  cache_size self = -1
  /\ Z.of_nat (size (cache self)) = 0
  /\ (Z.of_nat (size (cache self)) <=? cache_size self) = false.
Proof. cbv zeta. repeat (split; [vm_compute; reflexivity |]). vm_compute. reflexivity. Qed.

(** C5: [translate_text("gg", "en", "en")] on a new translator. *)
Lemma same_language_returns_text_witness :
  let self := {| translator := Some parrot; calls := [] |} in
  translator self = Some parrot
  /\ "gg" <> ""
  /\ "en" <> "auto"
  /\ GoogleTranslator_translate_text "gg" "en" "en" self = (Ok (Some "gg"), self)
  /\ calls (snd (GoogleTranslator_translate_text "gg" "en" "en" self)) = calls self.
Proof.
  split; [reflexivity |]. split; [discriminate |]. split; [discriminate |].
  apply (same_language_returns_text _ parrot "gg" "en");
    [reflexivity | discriminate | discriminate].
Defined.

(** C6: the cache of capacity one holds ["hello"]; the translation of
    ["world"] is a miss, the phrasebook answers ["mundo"], and the answer
    is not in the cache afterwards. *)
Lemma full_cache_drops_translation :
  let run := CachedTranslator_translate_text "world" "es" "en" full_translator in
  cache_size full_translator = 1
  /\ size (cache full_translator) = 1%nat
  /\ cache full_translator !! ("world", "en", "es") = None
  /\ fst run = Ok (Some "mundo")
  /\ delegated (snd run) = delegated full_translator ++ [("world", "es", "en")]
  /\ cache (snd run) !! ("world", "en", "es") = None.
Proof. cbv zeta. repeat (split; [vm_compute; reflexivity |]). vm_compute. reflexivity. Qed.

(** C6: the same cache, asked for ["hello"] again. *)
Lemma cached_translate_text_hit_or_miss_witness :
  "hello" <> ""
  /\ CachedTranslator_translate_text "hello" "es" "en" full_translator
     = (Ok (Some "hola"), full_translator).
Proof.
  split; [discriminate |].
  apply (cached_translate_text_hit_or_miss full_translator "hello" "es" "en").
  discriminate.
Defined.

(** C8: the record [{"text": "gg", "language": "en", "timestamp":
    null}]. *)
Lemma from_dict_timestamp_not_str_raises_witness :
  dict_lookup (PStr "timestamp")
    [ (PStr "text", PStr "gg"); (PStr "language", PStr "en");
      (PStr "timestamp", PNone) ] = Some PNone
  /\ ~ is_str PNone
  /\ fst (from_dict record_with_null_timestamp world0) = Raise TypeError.
Proof.
  split; [reflexivity |]. split; [exact (fun absurd => absurd) |].
  apply (from_dict_timestamp_not_str_raises _ PNone world0);
    [reflexivity | exact (fun absurd => absurd)].
Defined.

(** C8: a session file with that record is not loaded at all. *)
Example load_session_null_timestamp :
  let run := load_session "null_timestamp.json" (busy_session, world0) in
  fst run = Ok false
  /\ messages (fst (snd run)) = []
  /\ session_id (fst (snd run)) = PStr "20240301_080000".
Proof. cbv zeta. repeat (split; [reflexivity |]). reflexivity. Qed.

(** C9: a new session, a default path, every format. *)
Lemma empty_log_is_not_written_witness :
  messages fresh_session = []
  /\ save_session None (fresh_session, world0) = (Ok false, (fresh_session, world0))
  /\ forall format_type : string,
       export_session format_type None (fresh_session, world0)
       = (Ok false, (fresh_session, world0)).
Proof.
  split; [reflexivity |].
  apply (empty_log_is_not_written fresh_session world0 None). reflexivity.
Defined.

(** C7: the first message of the scenario, through the reference
    library. *)
Example scenario_message_roundtrip :
  fst (from_dict
         (to_dict (message_at (seconds_after_noon 2) "gg" "en" true
                     (PStr "bien jugado")))
         world0)
  = Ok (message_at (seconds_after_noon 2) "gg" "en" true (PStr "bien jugado")).
Proof. reflexivity. Qed.

(** The statistics of the scenario, as the specification lists them but
    for the word count: ["gg"] is one word. *)
Example scenario_stats :
  stats (snd (add_messages scenario fresh_session))
  = PDict [ (PStr "total_messages", PInt 3);
            (PStr "outgoing_messages", PInt 2);
            (PStr "incoming_messages", PInt 1);
            (PStr "languages", PDict [(PStr "en", PInt 2); (PStr "es", PInt 1)]);
            (PStr "word_count", PInt 5) ].
Proof. reflexivity. Qed.

(** The run of [tests/test_translator.py::test_cache_stats]. *)
Example test_cache_stats :
  let final := snd (TranslationCache.run
                      [ TranslationCache.CallGet "hello" "en" "es";
                        TranslationCache.CallSet "hello" "en" "es" "hola";
                        TranslationCache.CallGet "hello" "en" "es";
                        TranslationCache.CallGet "world" "en" "es" ]
                      (TranslationCache.__init__ 1000)) in
  TranslationCache.stat_hits (TranslationCache.get_stats final) = 1%nat
  /\ TranslationCache.stat_misses (TranslationCache.get_stats final) = 2%nat
  /\ TranslationCache.stat_size (TranslationCache.get_stats final) = 1%nat
  /\ (TranslationCache.stat_hit_rate (TranslationCache.get_stats final) == 100 # 3)%Q.
Proof. vm_compute. repeat split; reflexivity. Qed.

End Instances.

(** * Further code of the two files *)

(** ** [SessionManager._format_duration] *)

Section DurationFacts.

(** X1.  A duration that is not negative is shown by the hours, minutes
    and seconds that add up to it, minutes and seconds below sixty: the
    seconds alone under a minute, minutes and seconds under an hour, all
    three from an hour on. *)
Theorem format_duration_decomposes (seconds : Z) :
  0 <= seconds ->
  exists h m s,
    seconds = h * 3600 + m * 60 + s
    /\ 0 <= h /\ 0 <= m < 60 /\ 0 <= s < 60
    /\ _format_duration seconds
       = if seconds <? 60 then pretty s +:+ "s"
         else if seconds <? 3600 then pretty m +:+ "m " +:+ pretty s +:+ "s"
         else pretty h +:+ "h " +:+ pretty m +:+ "m " +:+ pretty s +:+ "s".
Proof.
  intros Hs.
  exists (seconds / 3600), ((seconds mod 3600) / 60), (seconds mod 60).
  pose proof (Z.div_mod seconds 3600 ltac:(lia)) as H1.
  pose proof (Z.mod_pos_bound seconds 3600 ltac:(lia)) as H2.
  pose proof (Z.div_mod (seconds mod 3600) 60 ltac:(lia)) as H3.
  pose proof (Z.mod_pos_bound (seconds mod 3600) 60 ltac:(lia)) as H4.
  pose proof (Z.mod_pos_bound seconds 60 ltac:(lia)) as H5.
  assert ((seconds mod 3600) mod 60 = seconds mod 60) as H6.
  { apply Z.mod_mod_divide. exists 60. reflexivity. }
  assert (0 <= seconds / 3600) as H7 by (apply Z.div_pos; lia).
  assert (0 <= (seconds mod 3600) / 60) as H8 by (apply Z.div_pos; lia).
  rewrite H6 in H3.
  repeat split; try lia.
  unfold _format_duration.
  destruct (Z.ltb_spec seconds 60) as [Hlt | Hge].
  - assert (seconds / 3600 = 0) as -> by (apply Z.div_small; lia).
    assert (seconds mod 3600 = seconds) as -> by (apply Z.mod_small; lia).
    assert (seconds / 60 = 0) as -> by (apply Z.div_small; lia).
    reflexivity.
  - destruct (Z.ltb_spec seconds 3600) as [Hlt2 | Hge2].
    + assert (seconds / 3600 = 0) as -> by (apply Z.div_small; lia).
      assert (seconds mod 3600 = seconds) as Hm by (apply Z.mod_small; lia).
      rewrite Hm in *.
      assert (0 < seconds / 60) as Hpos.
      { apply Z.div_str_pos. lia. }
      cbn [Z.ltb Z.compare]. destruct (Z.ltb_spec 0 (seconds / 60)); [reflexivity | lia].
    + assert (0 < seconds / 3600) as Hpos by (apply Z.div_str_pos; lia).
      destruct (Z.ltb_spec 0 (seconds / 3600)); [reflexivity | lia].
Qed.

(** X2.  A negative duration never shows hours: it is shown as what is
    left of it modulo one hour, so that minus one second reads
    [59m 59s]. *)
Theorem format_duration_negative (seconds : Z) :
  seconds < 0 ->
  _format_duration seconds = _format_duration (seconds mod 3600).
Proof.
  intros Hs.
  pose proof (Z.mod_pos_bound seconds 3600 ltac:(lia)) as Hr.
  unfold _format_duration.
  assert (seconds / 3600 < 0) as Hq by (apply Z.div_lt_upper_bound; lia).
  assert ((seconds mod 3600) / 3600 = 0) as Hq' by (apply Z.div_small; lia).
  assert ((seconds mod 3600) mod 3600 = seconds mod 3600) as Hm
    by (apply Z.mod_mod; lia).
  assert ((seconds mod 3600) mod 60 = seconds mod 60) as Hm'.
  { apply Z.mod_mod_divide. exists 60. reflexivity. }
  rewrite Hq', Hm, Hm'.
  destruct (Z.ltb_spec 0 (seconds / 3600)); [lia | reflexivity].
Qed.

End DurationFacts.

(** ** What the persistence operations do to the manager and to the files *)

Section PersistenceFacts.
Context `{PyLib}.

Lemma keeps_ret {A} (a : A) : keeps_self (ret a).
Proof. intros self w. eexists _, _. reflexivity. Qed.

Lemma keeps_raise {A} (e : exn) : keeps_self (@raise machine A e).
Proof. intros self w. eexists _, _. reflexivity. Qed.

Lemma keeps_lift {A} (o : outcome A) : keeps_self (lift o).
Proof. intros self w. eexists _, _. reflexivity. Qed.

Lemma keeps_self_ : keeps_self self_.
Proof. intros self w. eexists _, _. reflexivity. Qed.

Lemma keeps_io {A} (c : St world A) : keeps_self (io c).
Proof.
  intros self w. unfold io, zoom. cbn. destruct (c w) as [r w'].
  eexists _, _. reflexivity.
Qed.

Lemma keeps_bind {A B} (c : St machine A) (k : A -> St machine B) :
  keeps_self c -> (forall a, keeps_self (k a)) -> keeps_self (bind c k).
Proof.
  intros Hc Hk self w. unfold bind.
  destruct (Hc self w) as [[a | e] [w' ->]]; [apply Hk |].
  eexists _, _. reflexivity.
Qed.

Lemma keeps_try_except {A} (c : St machine A) (h : exn -> St machine A) :
  keeps_self c -> (forall e, keeps_self (h e)) -> keeps_self (try_except c h).
Proof.
  intros Hc Hh self w. unfold try_except.
  destruct (Hc self w) as [[a | e] [w' ->]]; [| apply Hh].
  eexists _, _. reflexivity.
Qed.

Ltac keeps :=
  repeat first
    [ apply keeps_try_except | apply keeps_bind | apply keeps_ret
    | apply keeps_raise | apply keeps_lift | apply keeps_self_ | apply keeps_io
    | match goal with
      | |- keeps_self (match ?x with _ => _ end) => destruct x
      | |- forall _, _ => intro
      end ].

(** A [try] block whose handler returns [False] never raises. *)
Lemma try_except_false_returns {S} (c : St S bool) (s : S) :
  exists b, fst (try_except c (fun _ => ret false) s) = Ok b.
Proof. unfold try_except, ret. destruct (c s) as [[b | e] s']; cbn; eauto. Qed.

Lemma serializers_keep_self (path : string) :
  keeps_self (_export_text path) /\ keeps_self (_export_html path)
  /\ keeps_self (_export_json path) /\ keeps_self (_export_pdf path)
  /\ keeps_self (_export_csv path).
Proof.
  unfold _export_text, _export_html, _export_json, _export_pdf, _export_csv.
  repeat split; keeps.
Qed.

Lemma serializer_returns (c : St machine bool) (s : machine) :
  keeps_self c ->
  (exists b, fst (c s) = Ok b) ->
  exists b w', c s = (Ok b, (fst s, w')).
Proof.
  intros Hk [b Hb]. destruct s as [self w].
  destruct (Hk self w) as [r [w' Hrun]]. rewrite Hrun in *. cbn in Hb. subst r.
  eauto.
Qed.


Lemma export_session_dispatch (format_type path : string) :
  (if String.eqb format_type "txt" then _export_text path
   else if String.eqb format_type "html" then _export_html path
   else if String.eqb format_type "json" then _export_json path
   else if String.eqb format_type "pdf" then _export_pdf path
   else if String.eqb format_type "csv" then _export_csv path
   else _export_text path)
  = serializer_for format_type path.
Proof.
  unfold serializer_for.
  repeat match goal with |- context [if ?b then _ else _] => destruct b end;
    reflexivity.
Qed.

Lemma serializer_for_returns (format_type path : string) (self : SessionManager)
    (w : world) :
  exists b w',
    try_except (serializer_for format_type path) (fun _ => ret false) (self, w)
    = (Ok b, (self, w')).
Proof.
  assert (keeps_self (try_except (serializer_for format_type path)
                        (fun _ => ret false))) as Hk.
  { destruct (serializers_keep_self path) as [Ht [Hh [Hj [Hp Hc]]]].
    apply keeps_try_except; [| intro; apply keeps_ret].
    unfold serializer_for.
    repeat match goal with |- context [if ?b then _ else _] => destruct b end;
      assumption. }
  apply (serializer_returns _ (self, w) Hk), try_except_false_returns.
Qed.

(** X3.  [save_session] never raises and never changes the manager.
    When the log is empty, when no path is given and the lookup of the
    save directory raises or the directory cannot be made, and when the
    target cannot be opened, it returns [False] and no file has changed.
    Otherwise the target is opened; [json.dump] being modelled as writing
    every value, the method then returns [True], the target holds the
    record of the session, taken at the current time, and no other file
    has changed. *)
Theorem save_session_effect
    (path : option string) (self : SessionManager) (w : world) :
  exists b w',
    save_session path (self, w) = (Ok b, (self, w'))
    /\ match save_opens self path w with
       | Some p =>
           b = true
           /\ files w'
              = <[p := JsonFile (json_reload (session_data self (clock w (ticks w))))]>
                  (files w)
       | None => b = false /\ files w' = files w
       end.
Proof.
  unfold save_session, save_opens, self_, io, mkdir, now,
    json_dump, write_file, open_w, put_file.
  py_run. destruct (messages self) as [| m msgs] eqn:Hm; py_run.
  - eexists _, _. split; [reflexivity |]. split; reflexivity.
  - destruct path as [p |]; py_run.
    + destruct (writable w p); py_run; eexists _, _; (split; [reflexivity |]);
        (split; [reflexivity |]); cbn; [apply insert_insert_eq | reflexivity].
    + destruct (save_dir (config self)) as [dir | e]; py_run;
        [| eexists _, _; split; [reflexivity |]; split; reflexivity].
      destruct (can_mkdir w dir); py_run;
        [| eexists _, _; split; [reflexivity |]; split; reflexivity].
      destruct (writable w _); py_run; eexists _, _; (split; [reflexivity |]);
        (split; [reflexivity |]); cbn; [apply insert_insert_eq | reflexivity].
Qed.

(** X4.  [export_session] never changes the manager.  It raises only
    from what it does before its [try] block, when the log is not empty
    and no path was given: the lookup of the export directory raises, or
    the directory cannot be made.  The exception then leaves the method,
    and nothing was written and the clock was not read.  In every other
    case it returns a boolean. *)
Theorem export_session_raises_only_for_directory
    (format_type : string) (path : option string) (self : SessionManager)
    (w : world) :
  exists r w',
    export_session format_type path (self, w) = (r, (self, w'))
    /\ if export_blocked self path w
       then (exists e, r = Raise e) /\ w' = w
       else exists b, r = Ok b.
Proof.
  unfold export_session, export_blocked, self_. py_run.
  destruct (messages self) as [| m msgs] eqn:Hm; py_run.
  - destruct path; eexists _, _; split; eauto.
  - destruct path as [p |]; py_run.
    + fold (try_except (S := machine) (A := bool)).
      rewrite export_session_dispatch.
      destruct (serializer_for_returns format_type p self w) as [b [w' Hrun]].
      unfold try_except, ret in Hrun. rewrite Hrun. eauto.
    + destruct (export_dir (config self)) as [dir | e]; py_run;
        [| eexists _, _; split; eauto].
      unfold io, mkdir. py_run.
      destruct (can_mkdir w dir); py_run;
        [| eexists _, _; split; eauto].
      match goal with
      | |- context [path_join ?d ?n] => set (p := path_join d n)
      end.
      fold (try_except (S := machine) (A := bool)).
      rewrite export_session_dispatch.
      destruct (serializer_for_returns format_type p self w) as [b [w' Hrun]].
      unfold try_except, ret in Hrun. rewrite Hrun. eauto.
Qed.


(** X5.  Exporting as JSON to a given path is saving to that path: the
    same result, the same file, the same reading of the clock. *)
Theorem export_json_is_save (path : string) (s : machine) :
  export_session "json" (Some path) s = save_session (Some path) s.
Proof.
  destruct s as [self w].
  unfold export_session, save_session, _export_json, self_. py_run.
  destruct (messages self); py_run; [reflexivity |].
  unfold io, now, json_dump, write_file, open_w, put_file. py_run.
  destruct (writable w path); py_run; reflexivity.
Qed.

(** X6.  A format that is none of the five is exported as text, to the
    same file: under a given path, and under the default path with the
    extension of text. *)
Theorem unknown_format_is_text
    (format_type : string) (path : option string) (s : machine) :
  format_type ∉ known_formats ->
  export_session format_type path s = export_session "txt" path s.
Proof.
  intros Hnew. unfold known_formats in Hnew.
  assert (forall k, k ∈ ["txt"; "html"; "json"; "pdf"; "csv"] ->
                    String.eqb format_type k = false) as Hne.
  { intros k Hk. apply String.eqb_neq. intros ->. exact (Hnew Hk). }
  unfold export_session.
  rewrite !Hne by (repeat first [apply list_elem_of_here | apply list_elem_of_further]).
  reflexivity.
Qed.

(** X7.  Without reportlab the PDF export returns [False] and leaves the
    manager, the files and the clock as they were. *)
Theorem export_pdf_without_reportlab
    (path : string) (self : SessionManager) (w : world) :
  reportlab w = None ->
  export_session "pdf" (Some path) (self, w) = (Ok false, (self, w)).
Proof.
  intros Hlib. unfold export_session, _export_pdf, self_, io. py_run.
  destruct (messages self); py_run; [reflexivity |].
  rewrite Hlib. destruct w; reflexivity.
Qed.

(** X8.  The PDF export writes all of the document or nothing: it
    never raises, and when it returns [False], for want of reportlab or
    of a total in the statistics, for a language that cannot be looked
    up, a document that cannot be built or a file that cannot be opened,
    every file is as it was. *)
Theorem export_pdf_all_or_nothing
    (path : string) (self : SessionManager) (w : world) :
  exists b w',
    export_session "pdf" (Some path) (self, w) = (Ok b, (self, w'))
    /\ if b then exists f, files w' = <[path := f]> (files w)
       else files w' = files w.
Proof.
  unfold export_session, _export_pdf, self_, io, now, write_file, open_w, put_file.
  py_run. destruct (messages self) as [| m msgs] eqn:Hm; py_run;
    [exists false, w; split; reflexivity |].
  destruct (reportlab w) as [lib |]; py_run;
    [| exists false; eexists; split; reflexivity].
  destruct (prepare_styles lib); py_run;
    [| exists false; eexists; split; reflexivity].
  destruct (getitem (stats self) (PStr "total_messages")); py_run;
    [| exists false; eexists; split; reflexivity].
  destruct (pdf_messages (messages self)); py_run;
    [| exists false; eexists; split; reflexivity].
  destruct (build lib _) as [f |]; py_run;
    [| exists false; eexists; split; reflexivity].
  destruct (writable w path); py_run;
    [| exists false; eexists; split; reflexivity].
  exists true. eexists. split; [reflexivity |]. exists f. cbn.
  apply insert_insert_eq.
Qed.

(** X9.  The CSV export of a log that is not empty, to a file that can
    be opened, returns [True] and writes the header row and one row for
    each message, in order; every row has five cells, the second names
    the speaker, and the last is empty for a message without
    translation. *)
Theorem export_csv_rows
    (path : string) (self : SessionManager) (w : world) :
  messages self <> [] ->
  writable w path = true ->
  exists w' rows,
    export_session "csv" (Some path) (self, w) = (Ok true, (self, w'))
    /\ files w' !! path
       = Some (CsvFile (["Timestamp"; "Speaker"; "Language"; "Text"; "Translation"]
                        :: rows))
    /\ length rows = length (messages self)
    /\ Forall (fun row => length row = 5%nat) rows
    /\ forall i msg row,
         messages self !! i = Some msg -> rows !! i = Some row ->
         row !! 1%nat = Some (if truthy (is_outgoing msg) then "You" else "Teammate")
         /\ (truthy (translation msg) = false -> row !! 4%nat = Some "").
Proof.
  intros Hlog Hopen.
  destruct self as [cfg msgs sid st ul sts au ai]. cbn [messages] in *.
  destruct msgs as [| m msgs]; [contradiction |].
  unfold export_session, _export_csv, self_, io, write_file, open_w, put_file.
  py_run. rewrite Hopen. py_run.
  eexists _, (map csv_row (m :: msgs)). split; [reflexivity |]. cbn [files set_files].
  split; [apply lookup_insert_eq |].
  split; [apply length_map |].
  split.
  - apply Forall_forall. intros row Hrow. apply list_elem_of_fmap in Hrow.
    destruct Hrow as [msg [-> _]]. reflexivity.
  - intros i msg row Hmsg Hrow. rewrite list_lookup_fmap, Hmsg in Hrow.
    inversion Hrow; subst row. unfold csv_row, speaker_of. cbn.
    split; [reflexivity |]. intros ->. cbn. rewrite py_str_PStr. reflexivity.
Qed.

(** X10.  A text export that fails can leave a file behind: when the
    statistics have no total (they were loaded from a file without it),
    the export returns [False], and the target has been created, or
    emptied, and holds the four lines written before the failure. *)
Theorem export_text_partial_file
    (path : string) (self : SessionManager) (w : world) (e : exn) :
  messages self <> [] ->
  writable w path = true ->
  getitem (stats self) (PStr "total_messages") = Raise e ->
  exists w' lines,
    export_session "txt" (Some path) (self, w) = (Ok false, (self, w'))
    /\ files w' !! path = Some (TextFile lines)
    /\ length lines = 4%nat.
Proof.
  intros Hlog Hopen Hstats.
  unfold export_session, _export_text, self_, io, with_open_w, emit, open_w,
    put_file, now.
  py_run. destruct (messages self) as [| m msgs] eqn:Hm; [contradiction |].
  py_run. rewrite Hopen. py_run. rewrite Hstats. py_run.
  eexists _, _. split; [reflexivity |]. cbn [files set_files].
  split; [apply lookup_insert_eq | reflexivity].
Qed.

(** X11.  Loading a JSON object that has none of the keys of a session
    returns [True]: the log and the participants' languages are emptied,
    and the session id, the start time and the statistics, which no
    longer describe the log, are kept. *)
Theorem load_session_without_keys
    (path : string) (d : list (pyval * pyval)) (self : SessionManager) (w : world) :
  files w !! path = Some (JsonFile (PDict d)) ->
  (forall k, k ∈ ["session_id"; "start_time"; "user_languages"; "stats"; "messages"] ->
             dict_lookup (PStr k) d = None) ->
  exists self',
    load_session path (self, w) = (Ok true, (self', w))
    /\ messages self' = []
    /\ user_languages self' = PDict []
    /\ session_id self' = session_id self
    /\ start_time self' = start_time self
    /\ stats self' = stats self.
Proof.
  intros Hfile Hkeys.
  assert (dict_lookup (PStr "session_id") d = None
          /\ dict_lookup (PStr "start_time") d = None
          /\ dict_lookup (PStr "user_languages") d = None
          /\ dict_lookup (PStr "stats") d = None
          /\ dict_lookup (PStr "messages") d = None) as [K1 [K2 [K3 [K4 K5]]]].
  { repeat split; apply Hkeys;
      repeat first [apply list_elem_of_here | apply list_elem_of_further]. }
  unfold load_session, io, read_json, update, self_, dict_get.
  py_run. rewrite Hfile. py_run.
  rewrite K1. py_run. rewrite K2. py_run.
  rewrite parse_isoformat_isoformat. py_run.
  rewrite K3. py_run. rewrite K4. py_run. rewrite K5. py_run.
  eexists. split; [reflexivity |]. repeat split; reflexivity.
Qed.

End PersistenceFacts.

(** ** Saving and loading again *)

(** Induction on values, through the lists and dicts they nest. *)
Section ValueInduction.
Variable P : pyval -> Prop.
Hypothesis HNone : P PNone.
Hypothesis HBool : forall b, P (PBool b).
Hypothesis HInt : forall n, P (PInt n).
Hypothesis HStr : forall s, P (PStr s).
Hypothesis HList : forall l, Forall P l -> P (PList l).
Hypothesis HDict : forall d, Forall (fun kv => P (snd kv)) d -> P (PDict d).

Fixpoint pyval_nested_ind (v : pyval) : P v :=
  match v with
  | PNone => HNone
  | PBool b => HBool b
  | PInt n => HInt n
  | PStr s => HStr s
  | PList l =>
      HList l
        ((fix go (xs : list pyval) : Forall P xs :=
            match xs with
            | [] => @List.Forall_nil _ P
            | x :: rest => @List.Forall_cons _ P x rest (pyval_nested_ind x) (go rest)
            end) l)
  | PDict d =>
      HDict d
        ((fix go (xs : list (pyval * pyval)) : Forall (fun kv => P (snd kv)) xs :=
            match xs with
            | [] => @List.Forall_nil _ _
            | kv :: rest =>
                @List.Forall_cons _ (fun kv => P (snd kv)) kv rest
                  (match kv as kv0 return P (snd kv0) with
                   | (_, x) => pyval_nested_ind x
                   end)
                  (go rest)
            end) d)
  end.
End ValueInduction.

Section RoundTripFacts.
Context `{PyLib}.

Lemma dict_set_new (k v : pyval) (d : list (pyval * pyval)) :
  existsb (key_eqb k) (map fst d) = false ->
  dict_set k v d = d ++ [(k, v)].
Proof.
  induction d as [| [k' v'] d IH]; cbn [dict_set map fst existsb app].
  - reflexivity.
  - intros Hnew. apply orb_false_iff in Hnew as [Hk Hrest].
    rewrite Hk, (IH Hrest). reflexivity.
Qed.

Lemma key_eqb_str_sym (a b : string) :
  key_eqb (PStr a) (PStr b) = key_eqb (PStr b) (PStr a).
Proof. cbn. apply String.eqb_sym. Qed.

(** Writing and reading again the items of a plain dict, after the
    items [acc] already read, adds them as they are. *)
Lemma reload_items (xs : list (pyval * pyval)) :
  forall acc,
    Forall (fun kv => json_reload (snd kv) = snd kv) xs ->
    forallb (fun kv => match fst kv with PStr _ => true | _ => false end) xs = true ->
    distinct_keys (map fst xs) = true ->
    (forall k, k ∈ map fst xs -> existsb (key_eqb k) (map fst acc) = false) ->
    (fix go (xs acc : list (pyval * pyval)) {struct xs} :=
       match xs with
       | [] => acc
       | (k, x) :: rest => go rest (dict_set (PStr (json_key k)) (json_reload x) acc)
       end) xs acc = acc ++ xs.
Proof.
  induction xs as [| [k x] xs IH]; intros acc Hvals Hstr Hdist Hacc.
  - rewrite app_nil_r. reflexivity.
  - inversion Hvals as [| ? ? Hx Hrest]; subst. cbn [snd] in Hx.
    cbn [forallb fst] in Hstr. apply andb_true_iff in Hstr as [Hk Hstr].
    destruct k as [| | | s | |]; try discriminate.
    cbn [map fst distinct_keys] in Hdist.
    apply andb_true_iff in Hdist as [Hfresh Hdist].
    apply negb_true_iff in Hfresh.
    cbn [json_key]. rewrite Hx.
    rewrite dict_set_new by (apply Hacc; apply list_elem_of_here).
    rewrite (IH (acc ++ [(PStr s, x)]) Hrest Hstr Hdist).
    + rewrite <- app_assoc. reflexivity.
    + intros k Hk'. rewrite map_app, existsb_app. cbn [map fst existsb].
      rewrite (Hacc k) by (apply list_elem_of_further; exact Hk').
      rewrite orb_false_r. cbn [orb].
      (* k is one of the later keys, s is not equal to any of them *)
      apply list_elem_of_fmap in Hk'. destruct Hk' as [[k0 x0] [-> Hin]].
      cbn [fst].
      assert (match k0 with PStr _ => true | _ => false end = true) as Hk0.
      { rewrite forallb_forall in Hstr. apply (Hstr (k0, x0)).
        apply list_elem_of_In. exact Hin. }
      destruct k0 as [| | | s0 | |]; try discriminate.
      rewrite key_eqb_str_sym.
      destruct (key_eqb (PStr s) (PStr s0)) eqn:Eq; [| reflexivity].
      exfalso. rewrite <- not_true_iff_false in Hfresh. apply Hfresh.
      apply existsb_exists. exists (PStr s0). split; [| exact Eq].
      apply list_elem_of_In. apply list_elem_of_fmap. exists (PStr s0, x0). auto.
Qed.

(** Plain JSON survives [json.dump] and [json.load]. *)
Lemma json_reload_plain (v : pyval) : plain_json v = true -> json_reload v = v.
Proof.
  induction v as [| b | n | s | l IH | d IH] using pyval_nested_ind;
    try reflexivity; intros Hplain.
  - cbn [json_reload]. f_equal. cbn [plain_json] in Hplain.
    induction l as [| x l IHl]; [reflexivity |].
    cbn [forallb] in Hplain. apply andb_true_iff in Hplain as [Hx Hl].
    inversion IH as [| ? ? IHx IHrest]; subst.
    cbn [map]. rewrite (IHx Hx), (IHl IHrest Hl). reflexivity.
  - cbn [plain_json] in Hplain.
    apply andb_true_iff in Hplain as [Hplain Hvals].
    apply andb_true_iff in Hplain as [Hstr Hdist].
    cbn [json_reload]. f_equal.
    rewrite (reload_items d []); [reflexivity | | exact Hstr | exact Hdist | reflexivity].
    rewrite forallb_forall in Hvals. rewrite Forall_forall in IH.
    apply Forall_forall. intros kv Hkv. apply IH; [exact Hkv |].
    apply Hvals. apply list_elem_of_In. exact Hkv.
Qed.

End RoundTripFacts.

Section SaveLoadFacts.
Context `{PyLib}.

Lemma from_dict_reload (m : VoiceMessage) (w : world) :
  from_dict (json_reload (to_dict m)) w = (Ok (reload_message m), snd (now w)).
Proof.
  destruct m as [tx lg og tr ts].
  unfold from_dict, to_dict, reload_message, Message.__init__, now.
  py_run. rewrite parse_isoformat_isoformat. py_run. reflexivity.
Qed.

Lemma load_messages_loop (body : pyval -> St machine unit) :
  (forall m s w,
     body (json_reload (to_dict m)) (s, w)
     = (Ok tt, (set_messages (messages s ++ [reload_message m]) s, snd (now w)))) ->
  forall (msgs : list VoiceMessage) (s : SessionManager) (w : world),
  exists w',
    for_each (map json_reload (map to_dict msgs)) body (s, w)
    = (Ok tt, (set_messages (messages s ++ map reload_message msgs) s, w')).
Proof.
  intros Hbody msgs. induction msgs as [| m msgs IH]; intros s w.
  - exists w. destruct s. cbn. unfold ret, set_messages. cbn.
    rewrite app_nil_r. reflexivity.
  - cbn [map for_each]. unfold bind. rewrite Hbody.
    destruct (IH (set_messages (messages s ++ [reload_message m]) s) (snd (now w)))
      as [w' Hrun].
    rewrite Hrun. exists w'. destruct s. unfold set_messages. cbn.
    rewrite <- app_assoc. reflexivity.
Qed.

(* The loop stays folded while the metadata is read. *)
#[local] Arguments for_each : simpl never.

Lemma load_saved (path : string) (self other : SessionManager)
    (end_time : datetime) (w1 : world) :
  files w1 !! path = Some (JsonFile (json_reload (session_data self end_time))) ->
  exists w2,
    load_session path (other, w1) = (Ok true, (reloaded self other, w2)).
Proof.
  intros Hfile.
  destruct self as [cf msgs sid st ul sts au ai].
  destruct other as [cf' msgs' sid' st' ul' sts' au' ai'].
  unfold load_session, read_json, update, self_, io.
  py_run. rewrite Hfile. py_run.
  unfold fromisoformat. rewrite parse_isoformat_isoformat. py_run.
  match goal with
  | |- context [for_each _ ?body (?s0, ?w0)] =>
      assert (forall x sx wx,
                body (json_reload (to_dict x)) (sx, wx)
                = (Ok tt, (set_messages (messages sx ++ [reload_message x]) sx,
                           snd (now wx)))) as Hbody;
      [| destruct (load_messages_loop body Hbody msgs s0 w0) as [w' Hloop] ]
  end.
  { intros [tx lg og tr ts] s w0.
    unfold from_dict, to_dict, reload_message, Message.__init__, now, fromisoformat.
    py_run. rewrite parse_isoformat_isoformat. py_run. reflexivity. }
  exists w'. rewrite Hloop. reflexivity.
Qed.

Lemma save_writes_record (path : string) (self : SessionManager) (w : world) :
  messages self <> [] ->
  writable w path = true ->
  exists w1,
    save_session (Some path) (self, w) = (Ok true, (self, w1))
    /\ files w1 !! path
       = Some (JsonFile (json_reload (session_data self (clock w (ticks w))))).
Proof.
  intros Hlog Hopen.
  destruct (messages self) as [| m msgs] eqn:Hm; [contradiction |].
  unfold save_session, self_, io, now, json_dump, write_file, open_w, put_file.
  py_run. rewrite Hm. py_run. rewrite Hopen. py_run.
  eexists. split; [reflexivity |]. cbn. apply lookup_insert_eq.
Qed.

Lemma plain_message_reload (m : VoiceMessage) :
  plain_message m = true -> reload_message m = m.
Proof.
  destruct m as [tx lg og tr ts]. unfold plain_message, reload_message. cbn.
  rewrite !andb_true_iff. intros [[[Htx Hlg] Hog] Htr].
  rewrite !json_reload_plain by assumption. reflexivity.
Qed.

Lemma plain_messages_reload (msgs : list VoiceMessage) :
  forallb plain_message msgs = true -> map reload_message msgs = msgs.
Proof.
  induction msgs as [| m msgs IH]; [reflexivity |]. cbn [forallb map].
  rewrite andb_true_iff. intros [Hm Hrest].
  rewrite plain_message_reload, IH by assumption. reflexivity.
Qed.

(** X12.  What a manager loads from a file that [save_session] has just
    written: the messages in their order and with their timestamps, the
    session id, the start time, the user languages and the statistics of
    the manager that saved, each as JSON gives it back; the loading
    manager keeps only its configuration and its autosave settings. *)
Theorem save_then_load (path : string) (self other : SessionManager)
    (w : world) :
  messages self <> [] ->
  writable w path = true ->
  exists w1 w2,
    save_session (Some path) (self, w) = (Ok true, (self, w1))
    /\ load_session path (other, w1) = (Ok true, (reloaded self other, w2)).
Proof.
  intros Hlog Hopen.
  destruct (save_writes_record path self w Hlog Hopen) as [w1 [Hsave Hfile]].
  destruct (load_saved path self other _ w1 Hfile) as [w2 Hload].
  exists w1, w2. split; assumption.
Qed.

(** X13.  When the values of the session are plain JSON (string keys,
    each once, in every dict), loading what was saved restores the log,
    the session id, the start time, the user languages and the
    statistics exactly. *)
Theorem save_then_load_restores (path : string) (self other : SessionManager)
    (w : world) :
  messages self <> [] ->
  writable w path = true ->
  plain_session self = true ->
  exists w1 loaded w2,
    save_session (Some path) (self, w) = (Ok true, (self, w1))
    /\ load_session path (other, w1) = (Ok true, (loaded, w2))
    /\ messages loaded = messages self
    /\ session_id loaded = session_id self
    /\ start_time loaded = start_time self
    /\ user_languages loaded = user_languages self
    /\ stats loaded = stats self
    /\ config loaded = config other.
Proof.
  intros Hlog Hopen Hplain.
  destruct (save_writes_record path self w Hlog Hopen) as [w1 [Hs Hfile]].
  destruct (load_saved path self other _ w1 Hfile) as [w2 Hl].
  unfold plain_session in Hplain. rewrite !andb_true_iff in Hplain.
  destruct Hplain as [[[Hsid Hul] Hst] Hmsgs].
  unfold reloaded in Hl.
  rewrite plain_messages_reload, !json_reload_plain in Hl by assumption.
  eexists w1, _, w2. split; [exact Hs |]. split; [exact Hl |].
  cbn. repeat split; reflexivity.
Qed.

End SaveLoadFacts.

(** ** More on the translators *)

Section GoogleFacts.

Lemma google_translate_text_run
    (self : GoogleTranslator) (text target source : string) :
  exists r self',
    GoogleTranslator_translate_text text target source self = (Ok r, self').
Proof.
  unfold GoogleTranslator_translate_text. py_run.
  destruct (translator self) as [g |]; [| eauto].
  destruct (String.eqb text ""); [eauto |].
  destruct (String.eqb source target && negb (String.eqb source "auto"));
    py_run; [eauto |].
  destruct (translate g (calls self) text source target); py_run; eauto.
Qed.

Lemma google_detect_language_run (self : GoogleTranslator) (text : string) :
  exists lang self',
    GoogleTranslator_detect_language text self = (Ok lang, self').
Proof.
  unfold GoogleTranslator_detect_language. py_run.
  destruct (translator self) as [g |]; [| eauto].
  destruct (String.eqb text ""); [eauto |]. py_run.
  destruct (detect g (calls self) text); py_run; eauto.
Qed.

(** X14.  [GoogleTranslator.translate_text] never raises, whatever the
    backend does: it returns a text or [None].  It keeps its backend
    object and makes at most one call on it, a [translate] of the text
    from the source to the target language; and when that call raises,
    the result is [None]. *)
Theorem google_translate_text_never_raises
    (self : GoogleTranslator) (text target source : string) :
  exists r self',
    GoogleTranslator_translate_text text target source self = (Ok r, self')
    /\ translator self' = translator self
    /\ (calls self' = calls self /\ (r = None \/ r = Some text)
        \/ calls self' = calls self ++ [CallTranslate text source target]
           /\ exists g, translator self = Some g
              /\ r = match translate g (calls self) text source target with
                     | Ok out => Some out
                     | Raise _ => None
                     end).
Proof.
  unfold GoogleTranslator_translate_text. py_run.
  destruct (translator self) as [g |] eqn:Hg; [| eexists _, _; eauto 10].
  destruct (String.eqb text ""); [eexists _, _; eauto 10 |].
  destruct (String.eqb source target && negb (String.eqb source "auto"));
    py_run; [eexists _, _; eauto 10 |].
  destruct (translate g (calls self) text source target) as [out | e] eqn:Hcall;
    py_run;
    eexists _, _; (split; [reflexivity |]); (split; [exact Hg |]);
    right; (split; [reflexivity |]); exists g; rewrite Hcall; split; reflexivity.
Qed.

(** X15.  [GoogleTranslator.detect_language] never raises: it answers
    with a language code, which is ["en"] for an empty text, for an
    object without backend and when the backend raises; it makes at most
    one call on the backend, a [detect] of the text. *)
Theorem google_detect_language_never_raises
    (self : GoogleTranslator) (text : string) :
  exists lang self',
    GoogleTranslator_detect_language text self = (Ok lang, self')
    /\ translator self' = translator self
    /\ (calls self' = calls self /\ lang = "en"
        \/ calls self' = calls self ++ [CallDetect text]
           /\ text <> ""
           /\ exists g, translator self = Some g
              /\ lang = match detect g (calls self) text with
                        | Ok l => l
                        | Raise _ => "en"
                        end).
Proof.
  unfold GoogleTranslator_detect_language. py_run.
  destruct (translator self) as [g |] eqn:Hg; [| eexists _, _; eauto 10].
  destruct (String.eqb_spec text "") as [-> | Htext]; [eexists _, _; eauto 10 |].
  py_run.
  destruct (detect g (calls self) text) as [l | e] eqn:Hcall; py_run;
    eexists _, _; (split; [reflexivity |]); (split; [exact Hg |]);
    right; (split; [reflexivity |]); (split; [exact Htext |]);
    exists g; rewrite Hcall; split; reflexivity.
Qed.

(** X16.  A cached translator over a Google translator never raises,
    from either method. *)
Theorem cached_google_never_raises
    (self : CachedTranslator GoogleTranslator) (text target source : string) :
  (exists r self', translate_text text target source self = (Ok r, self'))
  /\ (exists lang self', detect_language text self = (Ok lang, self')).
Proof.
  split.
  - cbn [translate_text CachedTranslator_BaseTranslator].
    destruct (String.eqb_spec text "") as [-> | Htext].
    { unfold CachedTranslator_translate_text. cbn. eauto. }
    rewrite (cached_translate_text_cases self text target source Htext).
    destruct (cache self !! (text, source, target)); [eauto |].
    cbn [translate_text GoogleTranslator_BaseTranslator].
    destruct (google_translate_text_run (base_translator self) text target source)
      as [r [b Hrun]].
    rewrite Hrun. cbn [fst snd]. destruct r; eauto.
  - cbn [detect_language CachedTranslator_BaseTranslator
         GoogleTranslator_BaseTranslator].
    unfold CachedTranslator_detect_language, zoom.
    cbn [detect_language GoogleTranslator_BaseTranslator].
    destruct (google_detect_language_run (base_translator self) text)
      as [lang [b Hrun]].
    rewrite Hrun. eauto.
Qed.

End GoogleFacts.

Section CachedFacts.
Context {T : Type} `{BaseTranslator T}.

Lemma perform_keeps_entry (o : operation) (self : CachedTranslator T)
    (key : string * string * string) (v : string) :
  cache self !! key = Some v -> cache (perform o self) !! key = Some v.
Proof.
  intros Hkey. destruct o as [text target source | text]; cbn [perform].
  - destruct (String.eqb_spec text "") as [-> | Htext].
    { unfold CachedTranslator_translate_text. cbn. exact Hkey. }
    rewrite (cached_translate_text_cases self text target source Htext).
    destruct (cache self !! (text, source, target)) as [cached |] eqn:Hlook;
      [exact Hkey |].
    destruct (translate_text text target source (base_translator self))
      as [[[r |] | e] b]; cbn [fst snd]; try exact Hkey.
    destruct (negb (String.eqb r "")
              && (Z.of_nat (size (cache self)) <? cache_size self));
      cbn; [| exact Hkey].
    rewrite lookup_insert_ne; [exact Hkey |]. congruence.
  - unfold CachedTranslator_detect_language. py_run.
    destruct (detect_language text (base_translator self)) as [r b]. exact Hkey.
Qed.

(** X17.  An entry of the cache stays, with its value, whatever is
    performed afterwards: the cache never evicts and never overwrites. *)
Theorem cache_entries_persist (os : list operation) (self : CachedTranslator T)
    (key : string * string * string) (v : string) :
  cache self !! key = Some v ->
  cache (perform_all os self) !! key = Some v.
Proof.
  unfold perform_all. revert self.
  induction os as [| o os IH]; intros self Hkey; cbn [fold_left]; [exact Hkey |].
  apply IH, perform_keeps_entry, Hkey.
Qed.

Lemma perform_values_nonempty (o : operation) (self : CachedTranslator T) :
  values_nonempty self -> values_nonempty (perform o self).
Proof.
  intros Hv. destruct o as [text target source | text]; cbn [perform].
  - destruct (String.eqb_spec text "") as [-> | Htext].
    { unfold CachedTranslator_translate_text. cbn. exact Hv. }
    rewrite (cached_translate_text_cases self text target source Htext).
    destruct (cache self !! (text, source, target)) as [cached |] eqn:Hlook;
      [exact Hv |].
    destruct (translate_text text target source (base_translator self))
      as [[[r |] | e] b]; cbn [fst snd]; try exact Hv.
    destruct (String.eqb_spec r "") as [-> | Hr]; cbn [negb andb]; [exact Hv |].
    destruct (Z.of_nat (size (cache self)) <? cache_size self); [| exact Hv].
    intros key v. cbn.
    destruct (decide ((text, source, target) = key)) as [<- | Hne].
    + rewrite lookup_insert_eq. intros [= <-]. exact Hr.
    + rewrite lookup_insert_ne by exact Hne. apply Hv.
  - unfold CachedTranslator_detect_language. py_run.
    destruct (detect_language text (base_translator self)) as [r b]. exact Hv.
Qed.

(** X18.  Whatever has been performed on a cached translator since its
    construction, an entry of its cache has a non-empty text in its key
    and a non-empty translation as its value. *)
Theorem cache_holds_no_empty_string
    (capacity : Z) (base : T) (os : list operation)
    (text source target v : string) :
  cache (perform_all os (CachedTranslator__init__ capacity base))
    !! (text, source, target) = Some v ->
  text <> "" /\ v <> "".
Proof.
  assert (forall self : CachedTranslator T,
            keys_nonempty self -> values_nonempty self ->
            keys_nonempty (perform_all os self)
            /\ values_nonempty (perform_all os self)) as Hinv.
  { unfold perform_all. induction os as [| o os IH]; intros self Hk Hv;
      cbn [fold_left]; [auto |].
    apply IH; [| apply perform_values_nonempty, Hv].
    intros t s g [x Hx]. destruct (cache self !! (t, s, g)) as [y |] eqn:Hy.
    - apply (Hk t s g). rewrite Hy. eauto.
    - clear IH. destruct o as [text' target' source' | text']; cbn [perform] in Hx.
      + destruct (String.eqb_spec text' "") as [-> | Htext].
        { unfold CachedTranslator_translate_text in Hx. cbn in Hx. congruence. }
        rewrite (cached_translate_text_cases self text' target' source' Htext) in Hx.
        destruct (cache self !! (text', source', target')) eqn:Hlook;
          [cbn in Hx; congruence |].
        destruct (translate_text text' target' source' (base_translator self))
          as [[[r |] | e] b]; cbn [fst snd] in Hx; try (cbn in Hx; congruence).
        destruct (negb (String.eqb r "")
                  && (Z.of_nat (size (cache self)) <? cache_size self));
          cbn in Hx; [| congruence].
        destruct (decide ((text', source', target') = (t, s, g))) as [Heq | Hne].
        * inversion Heq; subst. exact Htext.
        * rewrite lookup_insert_ne in Hx by exact Hne. congruence.
      + unfold CachedTranslator_detect_language in Hx. py_run.
        destruct (detect_language text' (base_translator self)) as [r b].
        cbn in Hx. congruence. }
  intros Hentry.
  destruct (Hinv (CachedTranslator__init__ capacity base)) as [Hk Hv].
  { intros t s g [x Hx]. cbn in Hx. rewrite lookup_empty in Hx. discriminate. }
  { intros key x Hx. cbn in Hx. rewrite lookup_empty in Hx. discriminate. }
  split; [apply (Hk text source target); rewrite Hentry; eauto
         | apply (Hv _ _ Hentry)].
Qed.

(** X19.  When a translation was not in the cache, the wrapped
    translator gave a non-empty text and there was room, the same request
    made again is answered from the cache: it returns the same text and
    leaves the translator as the first call left it, the wrapped
    translator not being called a second time. *)
Theorem repeated_request_served_from_cache
    (self : CachedTranslator T) (text target source r : string) :
  text <> "" ->
  cache self !! (text, source, target) = None ->
  fst (translate_text text target source (base_translator self)) = Ok (Some r) ->
  r <> "" ->
  Z.of_nat (size (cache self)) < cache_size self ->
  let self1 := snd (CachedTranslator_translate_text text target source self) in
  fst (CachedTranslator_translate_text text target source self) = Ok (Some r)
  /\ CachedTranslator_translate_text text target source self1 = (Ok (Some r), self1)
  /\ delegated self1 = delegated self ++ [(text, target, source)].
Proof.
  intros Htext Hmiss Hbase Hr Hroom self1. subst self1.
  rewrite (cached_translate_text_cases self text target source Htext), Hmiss.
  destruct (translate_text text target source (base_translator self)) as [res b].
  cbn [fst snd] in *. subst res.
  destruct (String.eqb_spec r "") as [? | _]; [contradiction |].
  destruct (Z.ltb_spec (Z.of_nat (size (cache self))) (cache_size self)); [| lia].
  cbn [negb andb fst snd].
  split; [reflexivity |]. split; [| reflexivity].
  rewrite (cached_translate_text_cases _ text target source Htext).
  cbn. rewrite lookup_insert_eq. reflexivity.
Qed.


End CachedFacts.

(** ** A message whose text is not a string *)

Section AddMessageFacts.
Context `{PyLib}.

Lemma add_message_no_split (self : SessionManager) (m : VoiceMessage)
    (a b c d : Z) (langs : list (pyval * pyval)) (lang : string) :
  stats self = stats_dict a b c langs d ->
  ~ is_str (text m) -> language m = PStr lang ->
  (forall v, dict_lookup (PStr lang) langs = Some v -> exists n, v = PInt n) ->
  add_message m self
  = (Raise AttributeError,
     set_stats
       (stats_dict (a + 1)
          (if truthy (is_outgoing m) then b + 1 else b)
          (if truthy (is_outgoing m) then c else c + 1)
          (tally lang langs)
          d)
       (set_messages (messages self ++ [m]) self)).
Proof.
  intros Hstats Htxt Hlang Hint.
  destruct m as [tx lg og tr ts]. cbn in Htxt, Hlang. subst lg.
  destruct self as [cfg msgs sid st ul sts au ai]. cbn in Hstats. subst sts.
  unfold add_message, stats_add, languages_set, set_messages, set_stats,
    stats_dict, tally.
  destruct tx as [| ? | ? | s | ? | ?]; try (exfalso; apply Htxt; exact I);
    py_run;
    (destruct (truthy og); py_run;
     (destruct (dict_lookup (PStr lang) langs) as [v |] eqn:Elook; py_run;
      [ destruct (Hint v eq_refl) as [cnt ->]; py_run; rewrite Elook; py_run;
        reflexivity
      | rewrite !dict_lookup_set, String.eqb_refl; py_run; reflexivity ])).
Qed.

(** X21.  [add_message] of a message whose text is not a string (its
    language being one) raises [AttributeError] at the word count, after
    the message has entered the log and the counters: the log ends with
    the message, and the statistics are those of the log, a text that is
    not a string counting for no word. *)
Theorem add_message_text_not_str (self : SessionManager) (m : VoiceMessage)
    (lang : string) :
  stats_agree self ->
  ~ is_str (text m) ->
  language m = PStr lang ->
  exists self',
    add_message m self = (Raise AttributeError, self')
    /\ messages self' = messages self ++ [m]
    /\ stats_agree self'.
Proof.
  intros [langs [Hstats [Hstr [Hnd Hlangs]]]] Htxt Hlang.
  assert (forall v, dict_lookup (PStr lang) langs = Some v -> exists n, v = PInt n)
    as Hint.
  { intros v Hv. rewrite Hlangs in Hv.
    destruct (_ =? 0); [discriminate | inversion Hv; eauto]. }
  rewrite (add_message_no_split self m _ _ _ _ langs lang Hstats Htxt Hlang Hint).
  destruct self as [cfg msgs sid st ul sts au ai].
  cbn [stats set_stats set_messages messages] in *.
  eexists. split; [reflexivity |].
  unfold set_stats, set_messages. cbn [messages stats]. split; [reflexivity |].
  exists (tally lang langs).
  cbn [messages stats config session_id start_time user_languages auto_save
       auto_save_interval].
  destruct (tally_keys lang langs Hstr Hnd) as [Hstr' Hnd'].
  split; [| split; [exact Hstr' | split; [exact Hnd' |]]].
  - unfold recomputed_total, recomputed_outgoing, recomputed_incoming.
    rewrite !count_if_snoc, recomputed_words_snoc, length_app.
    assert (words_of m = 0) as ->.
    { unfold words_of. destruct (text m); try reflexivity.
      exfalso. apply Htxt. exact I. }
    cbn [length].
    destruct (truthy (is_outgoing m)); cbn [negb];
      repeat f_equal; lia.
  - intros l. unfold recomputed_language in *. rewrite count_if_snoc.
    rewrite Hlang. cbn [py_eqb key_eqb].
    pose proof (count_if_nonneg (fun m0 => py_eqb (language m0) (PStr l)) msgs) as Hl.
    pose proof (Hlangs l) as Hq. pose proof (Hlangs lang) as Hk.
    unfold tally. rewrite Hk.
    destruct (Z.eqb_spec (count_if (fun m0 => py_eqb (language m0) (PStr lang)) msgs) 0)
      as [Hz | Hnz].
    + rewrite !dict_lookup_set, (String.eqb_sym l lang).
      destruct (String.eqb_spec lang l) as [-> | Hne].
      * rewrite Hz. reflexivity.
      * rewrite Z.add_0_r. exact Hq.
    + rewrite dict_lookup_set, (String.eqb_sym l lang).
      destruct (String.eqb_spec lang l) as [-> | Hne].
      * destruct (Z.eqb_spec (count_if (fun m0 => py_eqb (language m0) (PStr l)) msgs + 1) 0);
          [lia | reflexivity].
      * rewrite Z.add_0_r. exact Hq.
Qed.

End AddMessageFacts.

(** ** What loading leaves alone *)

Section LoadFacts.
Context `{PyLib}.

Lemma loads_only_refl (s : machine) : loads_only s s.
Proof. repeat split. Qed.

Lemma loads_only_trans (s1 s2 s3 : machine) :
  loads_only s1 s2 -> loads_only s2 s3 -> loads_only s1 s3.
Proof. unfold loads_only. intuition congruence. Qed.

Lemma reads_ret {A} (a : A) : reads_only (ret a).
Proof. intros s r s' [= <- <-]. apply loads_only_refl. Qed.

Lemma reads_lift {A} (o : outcome A) : reads_only (lift o).
Proof. intros s r s' [= <- <-]. apply loads_only_refl. Qed.

Lemma reads_self_ : reads_only self_.
Proof. intros s r s' [= <- <-]. apply loads_only_refl. Qed.

Lemma reads_bind {A B} (c : St machine A) (k : A -> St machine B) :
  reads_only c -> (forall a, reads_only (k a)) -> reads_only (bind c k).
Proof.
  intros Hc Hk s r s'. unfold bind.
  destruct (c s) as [[a | e] s1] eqn:E; intros Hrun.
  - eapply loads_only_trans; [eapply Hc, E | eapply Hk, Hrun].
  - inversion Hrun; subst. eapply Hc, E.
Qed.

Lemma reads_try_except {A} (c : St machine A) (h : exn -> St machine A) :
  reads_only c -> (forall e, reads_only (h e)) -> reads_only (try_except c h).
Proof.
  intros Hc Hh s r s'. unfold try_except.
  destruct (c s) as [[a | e] s1] eqn:E; intros Hrun.
  - inversion Hrun; subst. eapply Hc, E.
  - eapply loads_only_trans; [eapply Hc, E | eapply Hh, Hrun].
Qed.

Lemma reads_try_except_ValueError {A} (c h : St machine A) :
  reads_only c -> reads_only h -> reads_only (try_except_ValueError c h).
Proof.
  intros Hc Hh s r s'. unfold try_except_ValueError.
  destruct (c s) as [[a | e] s1] eqn:E; intros Hrun.
  - inversion Hrun; subst. eapply Hc, E.
  - destruct e; try (inversion Hrun; subst; eapply Hc, E).
    eapply loads_only_trans; [eapply Hc, E | eapply Hh, Hrun].
Qed.

Lemma reads_for_each {A} (xs : list A) (body : A -> St machine unit) :
  (forall x, reads_only (body x)) -> reads_only (for_each xs body).
Proof.
  intros Hbody. induction xs as [| x xs IH]; cbn [for_each].
  - apply reads_ret.
  - apply reads_bind; [apply Hbody | intros _; exact IH].
Qed.

Lemma reads_update (f : SessionManager -> SessionManager) :
  (forall s, config (f s) = config s /\ auto_save (f s) = auto_save s
             /\ auto_save_interval (f s) = auto_save_interval s) ->
  reads_only (update f).
Proof.
  intros Hf [self w] r s' [= <- <-]. destruct (Hf self) as [? [? ?]].
  repeat split; assumption.
Qed.

Lemma reads_io {A} (c : St world A) :
  (forall w, files (snd (c w)) = files w) -> reads_only (io c).
Proof.
  intros Hc [self w] r s'. unfold io, zoom. cbn [snd fst].
  specialize (Hc w). destruct (c w) as [x w1]. intros [= <- <-].
  repeat split. exact Hc.
Qed.

Lemma read_json_files (path : string) (w : world) :
  files (snd (read_json path w)) = files w.
Proof. unfold read_json. destruct (files w !! path) as [[] |]; reflexivity. Qed.

Lemma from_dict_files (data : pyval) (w : world) :
  files (snd (from_dict data w)) = files w.
Proof.
  unfold from_dict, Message.__init__, now, dict_get, contains, getitem,
    fromisoformat.
  py_run. destruct data as [| | | | | d]; try reflexivity.
  destruct (dict_lookup (PStr "text") d),
    (dict_lookup (PStr "language") d),
    (dict_lookup (PStr "is_outgoing") d),
    (dict_lookup (PStr "translation") d);
    py_run;
    (destruct (dict_lookup (PStr "timestamp") d) as [[| | | s | |] |];
     py_run; try reflexivity;
     destruct (parse_isoformat s); reflexivity).
Qed.

Lemma load_session_reads_only (path : string) : reads_only (load_session path).
Proof.
  unfold load_session.
  repeat first
    [ apply reads_try_except_ValueError | apply reads_try_except
    | apply reads_bind | apply reads_for_each
    | apply reads_ret | apply reads_lift | apply reads_self_
    | apply reads_io; first [apply read_json_files | apply from_dict_files]
    | apply reads_update; intros []; repeat split
    | intro ].
Qed.

(** X22.  [load_session] never raises, never writes a file and keeps
    the configuration and the autosave settings of the manager, whatever
    the file holds. *)
Theorem load_session_never_raises_or_writes
    (path : string) (self : SessionManager) (w : world) :
  exists b self' w',
    load_session path (self, w) = (Ok b, (self', w'))
    /\ files w' = files w
    /\ config self' = config self
    /\ auto_save self' = auto_save self
    /\ auto_save_interval self' = auto_save_interval self.
Proof.
  destruct (load_session_returns self w path) as [b Hb].
  destruct (load_session path (self, w)) as [r [self' w']] eqn:Hrun.
  cbn in Hb. subst r. exists b, self', w'. split; [reflexivity |].
  exact (load_session_reads_only path (self, w) _ _ Hrun).
Qed.

End LoadFacts.

(** ** The further properties on the samples *)

Section FurtherInstances.
Import Samples Phrasebook.
#[local] Existing Instance reference_lib.

(** X1: one hour, two minutes and five seconds. *)
Lemma format_duration_decomposes_witness :
  0 <= 3725
  /\ exists h m s,
       3725 = h * 3600 + m * 60 + s
       /\ 0 <= h /\ 0 <= m < 60 /\ 0 <= s < 60
       /\ _format_duration 3725
          = if 3725 <? 60 then pretty s +:+ "s"
            else if 3725 <? 3600 then pretty m +:+ "m " +:+ pretty s +:+ "s"
            else pretty h +:+ "h " +:+ pretty m +:+ "m " +:+ pretty s +:+ "s".
Proof.
  split; [lia |]. apply (format_duration_decomposes 3725). lia.
Defined.

(** X2: a clock that went back by one second. *)
Lemma format_duration_negative_witness :
  (-1) < 0 /\ _format_duration (-1) = _format_duration ((-1) mod 3600).
Proof.
  split; [lia |]. apply (format_duration_negative (-1)). lia.
Defined.

(** X6: a format that has no serializer. *)
Lemma unknown_format_is_text_witness :
  ("xml" ∉ known_formats)
  /\ export_session "xml" None (busy_session, world0)
     = export_session "txt" None (busy_session, world0).
Proof.
  assert ("xml" ∉ known_formats) as Hnew.
  { unfold known_formats. intros Hin.
    repeat (apply elem_of_cons in Hin as [Heq | Hin]; [discriminate Heq |]).
    inversion Hin. }
  exact (conj Hnew (unknown_format_is_text "xml" None (busy_session, world0) Hnew)).
Defined.

(** X7: the sample world has no reportlab. *)
Lemma export_pdf_without_reportlab_witness :
  reportlab world0 = None
  /\ export_session "pdf" (Some "log.pdf") (busy_session, world0)
     = (Ok false, (busy_session, world0)).
Proof.
  split; [reflexivity |].
  apply (export_pdf_without_reportlab "log.pdf" busy_session world0). reflexivity.
Defined.

(** X9: the scenario as CSV. *)
Lemma export_csv_rows_witness :
  messages busy_session <> []
  /\ writable world0 "log.csv" = true
  /\ exists w' rows,
       export_session "csv" (Some "log.csv") (busy_session, world0)
       = (Ok true, (busy_session, w'))
       /\ files w' !! "log.csv"
          = Some (CsvFile (["Timestamp"; "Speaker"; "Language"; "Text"; "Translation"]
                           :: rows))
       /\ length rows = length (messages busy_session)
       /\ Forall (fun row => length row = 5%nat) rows
       /\ forall i msg row,
            messages busy_session !! i = Some msg -> rows !! i = Some row ->
            row !! 1%nat = Some (if truthy (is_outgoing msg) then "You" else "Teammate")
            /\ (truthy (translation msg) = false -> row !! 4%nat = Some "").
Proof.
  split; [discriminate |]. split; [reflexivity |].
  apply (export_csv_rows "log.csv" busy_session world0);
    [discriminate | reflexivity].
Defined.

(** A manager whose statistics were loaded from a file that had none of
    the counters. *)
Definition session_without_totals : SessionManager :=
  set_stats (PDict []) busy_session.

(** X10: its text export. *)
Lemma export_text_partial_file_witness :
  messages session_without_totals <> []
  /\ writable world0 "log.txt" = true
  /\ getitem (stats session_without_totals) (PStr "total_messages") = Raise KeyError
  /\ exists w' lines,
       export_session "txt" (Some "log.txt") (session_without_totals, world0)
       = (Ok false, (session_without_totals, w'))
       /\ files w' !! "log.txt" = Some (TextFile lines)
       /\ length lines = 4%nat.
Proof.
  split; [discriminate |]. split; [reflexivity |]. split; [reflexivity |].
  apply (export_text_partial_file "log.txt" session_without_totals world0 KeyError);
    [discriminate | reflexivity | reflexivity].
Defined.

(** A world whose one file holds the empty JSON object. *)
Definition world_with_empty_object : world :=
  set_files {[ "empty.json" := JsonFile (PDict []) ]} world0.

(** X11: loading the empty JSON object. *)
Lemma load_session_without_keys_witness :
  files world_with_empty_object !! "empty.json" = Some (JsonFile (PDict []))
  /\ (forall k, k ∈ ["session_id"; "start_time"; "user_languages"; "stats"; "messages"] ->
                dict_lookup (PStr k) [] = None)
  /\ exists self',
       load_session "empty.json" (busy_session, world_with_empty_object)
       = (Ok true, (self', world_with_empty_object))
       /\ messages self' = []
       /\ user_languages self' = PDict []
       /\ session_id self' = session_id busy_session
       /\ start_time self' = start_time busy_session
       /\ stats self' = stats busy_session.
Proof.
  split; [reflexivity |]. split; [intros k _; reflexivity |].
  apply (load_session_without_keys "empty.json" [] busy_session world_with_empty_object);
    [reflexivity | intros k _; reflexivity].
Defined.

(** X12: the scenario, saved and loaded into a new manager. *)
Lemma save_then_load_witness :
  messages busy_session <> []
  /\ writable world0 "scenario.json" = true
  /\ exists w1 w2,
       save_session (Some "scenario.json") (busy_session, world0)
       = (Ok true, (busy_session, w1))
       /\ load_session "scenario.json" (fresh_session, w1)
          = (Ok true, (reloaded busy_session fresh_session, w2)).
Proof.
  split; [discriminate |]. split; [reflexivity |].
  apply (save_then_load "scenario.json" busy_session fresh_session world0);
    [discriminate | reflexivity].
Defined.

(** X13: the values of the scenario are plain JSON. *)
Lemma save_then_load_restores_witness :
  messages busy_session <> []
  /\ writable world0 "scenario.json" = true
  /\ plain_session busy_session = true
  /\ exists w1 loaded w2,
       save_session (Some "scenario.json") (busy_session, world0)
       = (Ok true, (busy_session, w1))
       /\ load_session "scenario.json" (fresh_session, w1) = (Ok true, (loaded, w2))
       /\ messages loaded = messages busy_session
       /\ session_id loaded = session_id busy_session
       /\ start_time loaded = start_time busy_session
       /\ user_languages loaded = user_languages busy_session
       /\ stats loaded = stats busy_session
       /\ config loaded = config fresh_session.
Proof.
  split; [discriminate |]. split; [reflexivity |]. split; [reflexivity |].
  apply (save_then_load_restores "scenario.json" busy_session fresh_session world0);
    [discriminate | reflexivity | reflexivity].
Defined.

(** X17: the entry for ["hello"] after a miss and a detection. *)
Lemma cache_entries_persist_witness :
  cache full_translator !! ("hello", "en", "es") = Some "hola"
  /\ cache (perform_all [TranslateText "world" "es" "en"; DetectLanguage "hola"]
              full_translator)
       !! ("hello", "en", "es") = Some "hola".
Proof.
  assert (cache full_translator !! ("hello", "en", "es") = Some "hola") as Hentry.
  { vm_compute. reflexivity. }
  exact (conj Hentry
           (cache_entries_persist
              [TranslateText "world" "es" "en"; DetectLanguage "hola"]
              full_translator ("hello", "en", "es") "hola" Hentry)).
Defined.

(** X18: the entry a first translation leaves. *)
Lemma cache_holds_no_empty_string_witness :
  cache (perform_all [TranslateText "hello" "es" "en"]
           (CachedTranslator__init__ 5 spanish))
    !! ("hello", "en", "es") = Some "hola"
  /\ "hello" <> "" /\ "hola" <> "".
Proof.
  assert (cache (perform_all [TranslateText "hello" "es" "en"]
                   (CachedTranslator__init__ 5 spanish))
            !! ("hello", "en", "es") = Some "hola") as Hentry.
  { vm_compute. reflexivity. }
  exact (conj Hentry
           (cache_holds_no_empty_string 5 spanish [TranslateText "hello" "es" "en"]
              "hello" "en" "es" "hola" Hentry)).
Defined.

(** X19: ["hello"] asked twice of a new cached translator. *)
Lemma repeated_request_served_from_cache_witness :
  let self := CachedTranslator__init__ 5 spanish in
  let self1 := snd (CachedTranslator_translate_text "hello" "es" "en" self) in
  "hello" <> ""
  /\ cache self !! ("hello", "en", "es") = None
  /\ fst (translate_text "hello" "es" "en" (base_translator self)) = Ok (Some "hola")
  /\ "hola" <> ""
  /\ Z.of_nat (size (cache self)) < cache_size self
  /\ fst (CachedTranslator_translate_text "hello" "es" "en" self) = Ok (Some "hola")
  /\ CachedTranslator_translate_text "hello" "es" "en" self1 = (Ok (Some "hola"), self1)
  /\ delegated self1 = delegated self ++ [("hello", "es", "en")].
Proof.
  cbv zeta.
  split; [discriminate |]. split; [reflexivity |]. split; [reflexivity |].
  split; [discriminate |]. split; [reflexivity |].
  apply (repeated_request_served_from_cache
           (CachedTranslator__init__ 5 spanish) "hello" "es" "en" "hola");
    [discriminate | reflexivity | reflexivity | discriminate | reflexivity].
Defined.


(** A message that came without a text. *)
Definition message_without_text : VoiceMessage :=
  {| text := PNone; language := PStr "en"; is_outgoing := PBool false;
     translation := PNone; timestamp := noon |}.

(** X21: that message, added to a new session. *)
Lemma add_message_text_not_str_witness :
  stats_agree fresh_session
  /\ ~ is_str (text message_without_text)
  /\ language message_without_text = PStr "en"
  /\ exists self',
       add_message message_without_text fresh_session = (Raise AttributeError, self')
       /\ messages self' = messages fresh_session ++ [message_without_text]
       /\ stats_agree self'.
Proof.
  assert (stats_agree fresh_session) as Hagree.
  { exists []. repeat split; try reflexivity; constructor. }
  split; [exact Hagree |]. split; [exact (fun absurd => absurd) |].
  split; [reflexivity |].
  apply (add_message_text_not_str fresh_session message_without_text "en");
    [exact Hagree | exact (fun absurd => absurd) | reflexivity].
Defined.

(** A configuration whose directories are set to [%USERPROFILE%\logs]:
    configparser cannot interpolate the value, and both lookups raise. *)
Definition config_with_bad_directories : Config :=
  {| save_dir := Raise InterpolationError;
     export_dir := Raise InterpolationError;
     cfg_auto_save := Ok false; cfg_auto_save_interval := Ok 300 |}.

Definition misconfigured_session : SessionManager :=
  {| config := config_with_bad_directories; messages := scenario;
     session_id := PStr "20240309_120000"; start_time := seconds_after_noon 1;
     user_languages := PDict []; stats := empty_stats;
     auto_save := false; auto_save_interval := 300 |}.

(** Under that configuration and without a path, [save_session] catches
    the error and returns [False], and [export_session], whose lookup is
    outside the [try] block, raises it; neither writes a file. *)
Example misconfigured_directories :
  save_session None (misconfigured_session, world0)
  = (Ok false, (misconfigured_session, world0))
  /\ export_session "txt" None (misconfigured_session, world0)
     = (Raise InterpolationError, (misconfigured_session, world0)).
Proof. split; reflexivity. Qed.

End FurtherInstances.
